(** * Citation Galaxy: layout, encoding and interaction engine

    A shallow embedding of the algorithmic core of the galaxy-cite frontend
    (the [Star], [ConnectionLine] and [Galaxy] components, the
    [TimelineSlider] histogram and the [App] state handlers) together with
    the properties its specification states about them.

    Conventions of the embedding.
    - A publication is a record whose optional members are [option]s: [None]
      stands for a member that is absent ([undefined]) in the JavaScript
      object.
    - Years, citation counts and cluster ids are integers ([Z]).
    - Quantities the code computes in double precision (positions, colours,
      line widths, opacities, sizes) are modelled over the real numbers [R]:
      the same expression tree, evaluated exactly.
    - A JavaScript exception is an explicit [Throw] result. *)

From Stdlib Require Import ZArith List String Ascii Bool Reals Lra Lia.
From Stdlib Require Import DecimalString.
Import ListNotations.

Local Open Scope string_scope.
Local Open Scope list_scope.
Local Open Scope Z_scope.

(** ** Data model *)

Record Paper : Type := mkPaper {
  id             : string;
  title          : option string;
  authors        : list string;
  year           : option Z;
  citation_count : option Z;
  fields         : option (list string);
  cluster        : option Z;
  abstract_text  : option string;
  doi            : option string;
  arxiv_id       : option string;
  url            : option string
}.

(** [x || 0] on an optional number: [undefined] and [0] are both falsy. *)
Definition or0 (x : option Z) : Z :=
  match x with
  | Some n => n
  | None => 0
  end.

(** Truthiness of an optional number: present and different from [0]. *)
Definition truthy (x : option Z) : bool :=
  match x with
  | Some n => negb (n =? 0)
  | None => false
  end.

(** [paper.citation_count || 0] *)
Definition citations (p : Paper) : Z := or0 (citation_count p).

(** ** Central/Selection resolver ([Galaxy.centralPaperId]) *)

(** The callback of [papers.reduce]:
    [(prev.citation_count || 0) > (current.citation_count || 0) ? prev : current]. *)
Definition keepCited (prev current : Paper) : Paper :=
  if citations prev >? citations current then prev else current.

(** [papers.length > 0 ? papers.reduce(keepCited).id : null].  A [reduce]
    without initial value starts from the first element. *)
Definition centralPaperId (papers : list Paper) : option string :=
  match papers with
  | [] => None
  | p :: ps => Some (id (fold_left keepCited ps p))
  end.

(** The resolver as the specification words it: the first publication, in
    list order, whose citation count is the maximum of the list. *)
Definition maxCitations (papers : list Paper) : Z :=
  match papers with
  | [] => 0
  | p :: ps => fold_left Z.max (map citations ps) (citations p)
  end.

Definition firstMaximalId (papers : list Paper) : option string :=
  option_map id
    (find (fun p => citations p =? maxCitations papers) papers).

(** A bare publication carrying only an id, a year and a citation count. *)
Definition bare (i : string) (y c : option Z) : Paper :=
  mkPaper i (Some i) [] y c (Some []) None None None None None.

(** ** JavaScript values and exceptions met by the components *)

(** What a property read such as [fieldColors[field]] can evaluate to: a
    string stored in the object itself, a member inherited from
    [Object.prototype] (a function or object, never a colour string), or
    [undefined]. *)
Inductive JsValue : Type :=
  | JsString (s : string)
  | JsInherited (name : string)
  | JsUndefined.

Definition isTruthy (v : JsValue) : bool :=
  match v with
  | JsString s => negb (String.eqb s "")
  | JsInherited _ => true
  | JsUndefined => false
  end.

Inductive JsError : Type :=
  | TypeError (message : string).

Inductive result (A : Type) : Type :=
  | Ok (a : A)
  | Throw (e : JsError).

Arguments Ok {A} a.
Arguments Throw {A} e.

Definition bind {A B : Type} (m : result A) (k : A -> result B) : result B :=
  match m with
  | Ok a => k a
  | Throw e => Throw e
  end.

Notation "x <- m ;; k" := (bind m (fun x => k))
  (at level 61, m at next level, right associativity).

(** Evaluates the elements left to right and stops at the first exception. *)
Fixpoint sequence {A : Type} (l : list (result A)) : result (list A) :=
  match l with
  | [] => Ok []
  | m :: ms => a <- m ;; rest <- sequence ms ;; Ok (a :: rest)
  end.

(** ** Color/Size encoder ([Star.getColor], [Star] size) *)

Definition fieldColors : list (string * string) :=
  [ ("Computer Science", "#4285F4");
    ("Artificial Intelligence", "#EA4335");
    ("Machine Learning", "#FBBC05");
    ("Mathematics", "#34A853");
    ("Physics", "#8B5CF6");
    ("Biology", "#10B981");
    ("Chemistry", "#F59E0B");
    ("Medicine", "#EF4444");
    ("Engineering", "#6366F1") ].

Definition clusterColors : list string :=
  [ "#FF6B6B"; "#4ECDC4"; "#FFD166"; "#06D6A0";
    "#118AB2"; "#EF476F"; "#073B4C"; "#7209B7" ].

(** The members every object literal inherits from [Object.prototype]. *)
Definition objectPrototypeMembers : list string :=
  [ "constructor"; "hasOwnProperty"; "isPrototypeOf"; "propertyIsEnumerable";
    "toLocaleString"; "toString"; "valueOf"; "__proto__";
    "__defineGetter__"; "__defineSetter__"; "__lookupGetter__";
    "__lookupSetter__" ].

Fixpoint ownProperty (o : list (string * string)) (key : string) : option string :=
  match o with
  | [] => None
  | (k, v) :: o' => if String.eqb key k then Some v else ownProperty o' key
  end.

(** [o[key]] for an object literal [o]: own properties first, then the
    prototype chain. *)
Definition getProperty (o : list (string * string)) (key : string) : JsValue :=
  match ownProperty o key with
  | Some v => JsString v
  | None =>
      if existsb (String.eqb key) objectPrototypeMembers
      then JsInherited key
      else JsUndefined
  end.

(** [for (const field of fields) if (fieldColors[field]) return fieldColors[field]] *)
Fixpoint scanFields (fs : list string) : option JsValue :=
  match fs with
  | [] => None
  | field :: rest =>
      if isTruthy (getProperty fieldColors field)
      then Some (getProperty fieldColors field)
      else scanFields rest
  end.

(** [Math.abs(paper.cluster || 0) % clusterColors.length] *)
Definition clusterIdx (paper : Paper) : Z :=
  Z.rem (Z.abs (or0 (cluster paper))) (Z.of_nat (List.length clusterColors)).

Definition arrayGet (a : list string) (i : Z) : JsValue :=
  if i <? 0 then JsUndefined
  else match nth_error a (Z.to_nat i) with
       | Some s => JsString s
       | None => JsUndefined
       end.

Definition getColor (paper : Paper) : JsValue :=
  let scanned :=
    match fields paper with
    | Some fs => if (0 <? List.length fs)%nat then scanFields fs else None
    | None => None
    end in
  match scanned with
  | Some c => c
  | None => arrayGet clusterColors (clusterIdx paper)
  end.

(** A label is recognized when it is a key of the topic table. *)
Definition recognized (field : string) : bool :=
  match ownProperty fieldColors field with
  | Some _ => true
  | None => false
  end.

(** A label that is neither a key of the topic table nor a member inherited
    from the prototype reads as [undefined]. *)
Definition plainLabel (field : string) : bool :=
  negb (recognized field) && negb (existsb (String.eqb field) objectPrototypeMembers).

Definition Vec3 : Type := (R * R * R)%type.

(** [0.3 + Math.log10((paper.citation_count || 0) + 1) * 0.2], the decimal
    logarithm written with [ln]; the data model keeps the count at or above
    0, where the logarithm is defined. *)
Definition starSize (paper : Paper) : R :=
  (0.3 + (ln (IZR (citations paper + 1)) / ln 10) * 0.2)%R.

(** [paper.title.substring(0, n)] followed by the literal dots of the label;
    reading [substring] of an absent title is a [TypeError]. *)
Definition titleLabel (paper : Paper) (n : nat) : result string :=
  match title paper with
  | Some t => Ok (substring 0 n t ++ "...")%string
  | None =>
      Throw (TypeError "Cannot read properties of undefined (reading 'substring')")
  end.

Record StarView : Type := mkStarView {
  star_position : Vec3;
  star_scale    : R;
  star_color    : JsValue;
  star_size     : R;
  star_halo     : option R;
  star_central  : option string;
  star_hover    : option string
}.

(** The [Star] component: [hovered] is its local state. *)
Definition Star (paper : Paper) (position : Vec3)
    (isSelected isCentral hovered : bool) : result StarView :=
  let scale := (if isSelected then 2 else if hovered then 1.5 else 1)%R in
  let color := getColor paper in
  let size := starSize paper in
  let halo := if isSelected then Some (size * 1.5)%R else None in
  central <- (if isCentral
              then l <- titleLabel paper 20 ;; Ok (Some l)
              else Ok None) ;;
  hover <- (if hovered && negb isSelected
            then l <- titleLabel paper 15 ;; Ok (Some l)
            else Ok None) ;;
  Ok (mkStarView position scale color size halo central hover).

(** ** Connection curve generator ([ConnectionLine]) *)

Record Color : Type := mkColor { red : R; green : R; blue : R }.

(** [new THREE.Color(hex)]: one byte per channel, scaled to the unit
    interval. *)
Definition Color_of_hex (hex : Z) : Color :=
  mkColor (IZR (Z.land (Z.shiftr hex 16) 255) / 255)
          (IZR (Z.land (Z.shiftr hex 8) 255) / 255)
          (IZR (Z.land hex 255) / 255).

(** [c.lerp(target, alpha)]: each channel moves by [alpha] of the way. *)
Definition lerp (c target : Color) (alpha : R) : Color :=
  mkColor (red c + (red target - red c) * alpha)
          (green c + (green target - green c) * alpha)
          (blue c + (blue target - blue c) * alpha).

Definition anchorFirst : Color := Color_of_hex 0x60A5FA.
Definition anchorSecond : Color := Color_of_hex 0x8B5CF6.

Record LineView : Type := mkLineView {
  line_control   : list Vec3;
  line_divisions : nat;
  line_color     : Color;
  lineWidth      : R;
  opacity        : R
}.

(** The elevated midpoint of the three control points. *)
Definition midpoint (start finish : Vec3) : Vec3 :=
  let '(sx, sy, sz) := start in
  let '(ex, ey, ez) := finish in
  ((sx + ex) / 2, (sy + ey) / 2 + 0.5, (sz + ez) / 2)%R.

(** [ConnectionLine({ start, end, strength = 1 })]: the default applies to an
    absent [strength] only.  The curve is kept as its control points and the
    number of divisions handed to the spline sampler. *)
Definition ConnectionLine (start finish : Vec3) (strength : option R) : LineView :=
  let s := match strength with Some s => s | None => 1%R end in
  mkLineView [start; midpoint start finish; finish]
             20
             (lerp anchorFirst anchorSecond s)
             (Rmax 0.3 (s * 2))
             (0.2 + s * 0.3)%R.

(** ** Spatial layout and the [Galaxy] component *)

Record Connection : Type := mkConnection {
  source   : string;
  target   : string;
  strength : option R
}.

Record PositionedPaper : Type := mkPositioned {
  paper_of : Paper;
  position : Vec3
}.

(** [array.map((x, index) => f(x, index))] *)
Fixpoint mapi_from {A B : Type} (f : A -> nat -> B) (index : nat) (l : list A) : list B :=
  match l with
  | [] => []
  | x :: xs => f x index :: mapi_from f (S index) xs
  end.

Definition mapi {A B : Type} (f : A -> nat -> B) (l : list A) : list B :=
  mapi_from f 0 l.

(** The callback of [papers.map] in [positionedPapers]; [{...paper, position}]
    keeps the publication and adds its position. *)
Definition place (total : nat) (paper : Paper) (index : nat) : PositionedPaper :=
  if Nat.eqb total 1 then mkPositioned paper (0, 0, 0)%R
  else
    let phi := acos (2 * INR index / INR total - 1) in
    let theta := (PI * (1 + sqrt 5) * INR index)%R in
    let radius := (8 + IZR (citations paper) * 0.05)%R in
    let x := (radius * sin phi * cos theta)%R in
    let y := (radius * sin phi * sin theta * 0.5)%R in
    let z := (radius * cos phi)%R in
    mkPositioned paper (x, y, z).

Definition positionedPapers (papers : list Paper) : list PositionedPaper :=
  mapi (place (List.length papers)) papers.

(** [positionedPapers.find(p => p.id === wanted)] *)
Definition findById (positioned : list PositionedPaper) (wanted : string)
    : option PositionedPaper :=
  find (fun p => String.eqb (id (paper_of p)) wanted) positioned.

(** [x || 1] on an optional strength. *)
Definition or1 (x : option R) : R :=
  match x with
  | Some s => if Req_dec_T s 0 then 1%R else s
  | None => 1%R
  end.

(** The callback of [connections.map]: a line when both endpoints are
    found, [null] otherwise. *)
Definition connectionLine (positioned : list PositionedPaper) (connection : Connection)
    : option LineView :=
  match findById positioned (source connection),
        findById positioned (target connection) with
  | Some sourcePaper, Some targetPaper =>
      Some (ConnectionLine (position sourcePaper) (position targetPaper)
                           (Some (or1 (strength connection))))
  | _, _ => None
  end.

(** [paper.id === x] where [x] may be [null] or [undefined]. *)
Definition idIs (paper : Paper) (x : option string) : bool :=
  match x with
  | Some s => String.eqb (id paper) s
  | None => false
  end.

Record GalaxyView : Type := mkGalaxyView {
  view_stars : list StarView;
  view_lines : list (option LineView)
}.

(** What [Galaxy] renders: one [Star] per positioned publication, then the
    connections.  [hovered] gives the local hover state of each star. *)
Definition Galaxy (papers : list Paper) (connections : list Connection)
    (selectedPaperId : option string) (hovered : string -> bool)
    : result GalaxyView :=
  let positioned := positionedPapers papers in
  let central := centralPaperId papers in
  stars <- sequence
             (map (fun p => Star (paper_of p) (position p)
                                 (idIs (paper_of p) selectedPaperId)
                                 (idIs (paper_of p) central)
                                 (hovered (id (paper_of p))))
                  positioned) ;;
  Ok (mkGalaxyView stars (map (connectionLine positioned) connections)).

(** ** Year histogram and range filter ([TimelineSlider], [App.filteredPapers]) *)

(** [papers.map(p => p.year || 0).filter(y => y > 1900)] *)
Definition validYears (papers : list Paper) : list Z :=
  filter (fun y => 1900 <? y) (map (fun p => or0 (year p)) papers).

(** [yearStats]: [(minYear, maxYear)]; [currentYear] stands for
    [new Date().getFullYear()]. *)
Definition yearStats (currentYear : Z) (papers : list Paper) : Z * Z :=
  match papers with
  | [] => (1900, currentYear)
  | _ :: _ =>
      match validYears papers with
      | [] => (1900, currentYear)
      | y :: ys => (fold_left Z.min ys y, fold_left Z.max ys y)
      end
  end.

(** [range] and [buckets] of [getYearDistribution]. *)
Definition yearSpan (currentYear : Z) (papers : list Paper) : Z :=
  snd (yearStats currentYear papers) - fst (yearStats currentYear papers) + 1.

Definition bucketCount (currentYear : Z) (papers : list Paper) : Z :=
  Z.min (yearSpan currentYear papers) 20.

(** The [distribution] object: its integer keys with their counts, in the
    ascending key order in which [Object.values] enumerates them. *)
Definition Distribution : Type := list (Z * Z).

(** [for (let i = 0; i < buckets; i++) distribution[i] = 0] *)
Fixpoint zeroBuckets (i : Z) (n : nat) : Distribution :=
  match n with
  | O => []
  | S n' => (i, 0) :: zeroBuckets (i + 1) n'
  end.

(** [distribution[k] = (distribution[k] || 0) + 1]; a key that is not there
    yet is created. *)
Fixpoint increment (k : Z) (d : Distribution) : Distribution :=
  match d with
  | [] => [(k, 1)]
  | (k', v) :: d' =>
      if k =? k' then (k', v + 1) :: d'
      else if k <? k' then (k, 1) :: (k', v) :: d'
      else (k', v) :: increment k d'
  end.

(** [Math.floor(((y - minYear) / range) * buckets)], the quotient taken
    exactly. *)
Definition rawBucket (minYear range buckets y : Z) : Z :=
  ((y - minYear) * buckets) / range.

(** [Math.max(0, Math.min(buckets - 1, bucket))] *)
Definition clampBucket (buckets bucket : Z) : Z :=
  Z.max 0 (Z.min (buckets - 1) bucket).

(** [safeBucket] of a year under the statistics of the list. *)
Definition safeBucket (currentYear : Z) (papers : list Paper) (y : Z) : Z :=
  clampBucket (bucketCount currentYear papers)
    (rawBucket (fst (yearStats currentYear papers))
               (yearSpan currentYear papers)
               (bucketCount currentYear papers) y).

(** The body of [papers.forEach]: only a truthy [paper.year] is counted. *)
Definition countPaper (currentYear : Z) (papers : list Paper)
    (d : Distribution) (paper : Paper) : Distribution :=
  if truthy (year paper)
  then increment (safeBucket currentYear papers (or0 (year paper))) d
  else d.

Definition getYearDistribution (currentYear : Z) (papers : list Paper) : list Z :=
  map snd
    (fold_left (countPaper currentYear papers) papers
       (zeroBuckets 0 (Z.to_nat (bucketCount currentYear papers)))).

Definition sumZ (l : list Z) : Z := fold_right Z.add 0 l.

(** Number of publications satisfying a test. *)
Definition countIf (test : Paper -> bool) (papers : list Paper) : Z :=
  Z.of_nat (List.length (filter test papers)).

Definition yearAfter1900 (paper : Paper) : bool := 1900 <? or0 (year paper).
Definition yearTruthy (paper : Paper) : bool := truthy (year paper).

(** [paper.year >= yearRange[0] && paper.year <= yearRange[1]]: a comparison
    with an absent year is false. *)
Definition inYearRange (yearRange : Z * Z) (paper : Paper) : bool :=
  match year paper with
  | Some y => (fst yearRange <=? y) && (y <=? snd yearRange)
  | None => false
  end.

(** [App.filteredPapers] *)
Definition filteredPapers (papers : list Paper) (yearRange : Z * Z) : list Paper :=
  filter (inYearRange yearRange) papers.

(** The "Papers in range" figure of [TimelineSlider]. *)
Definition papersInRange (papers : list Paper) (yearRange : Z * Z) : nat :=
  List.length (filter (inYearRange yearRange) papers).

(** ** Interaction state ([App]) *)

Record AppState : Type := mkAppState {
  papers        : list Paper;
  connections   : list Connection;
  selectedPaper : option Paper;
  loading       : bool;
  yearRange     : Z * Z;
  showExamples  : bool
}.

(** [useState([1990, new Date().getFullYear()])] *)
Definition defaultYearRange (currentYear : Z) : Z * Z := (1990, currentYear).

Definition initialState (currentYear : Z) : AppState :=
  mkAppState [] [] None false (defaultYearRange currentYear) true.

(** What [fetchPaperNetwork] resolves to. *)
Record FetchResult : Type := mkFetchResult {
  result_papers        : list Paper;
  result_edges         : list Connection;
  result_central_paper : option string
}.

Definition isWhitespace (c : ascii) : bool :=
  match nat_of_ascii c with
  | 9%nat | 10%nat | 11%nat | 12%nat | 13%nat | 32%nat => true
  | _ => false
  end.

Definition byteIs (c : ascii) (n : nat) : bool := Nat.eqb (nat_of_ascii c) n.

Definition byteIn (c : ascii) (lo hi : nat) : bool :=
  (lo <=? nat_of_ascii c)%nat && (nat_of_ascii c <=? hi)%nat.

(** The white space of two bytes in UTF-8: U+00A0. *)
Definition isWhitespace2 (c1 c2 : ascii) : bool :=
  byteIs c1 194 && byteIs c2 160.

(** The white space and line terminators of three bytes in UTF-8: U+1680,
    U+2000 to U+200A, U+2028, U+2029, U+202F, U+205F, U+3000 and U+FEFF. *)
Definition isWhitespace3 (c1 c2 c3 : ascii) : bool :=
  (byteIs c1 225 && byteIs c2 154 && byteIs c3 128)
  || (byteIs c1 226 && byteIs c2 128
      && (byteIn c3 128 138 || byteIs c3 168 || byteIs c3 169 || byteIs c3 175))
  || (byteIs c1 226 && byteIs c2 129 && byteIs c3 159)
  || (byteIs c1 227 && byteIs c2 128 && byteIs c3 128)
  || (byteIs c1 239 && byteIs c2 187 && byteIs c3 191).

(** [!input.trim()]: the text, read as UTF-8, is made only of the characters
    [trim] strips (white space and line terminators). *)
Fixpoint isBlank (input : string) : bool :=
  match input with
  | EmptyString => true
  | String c1 rest1 =>
      if isWhitespace c1 then isBlank rest1
      else
        match rest1 with
        | EmptyString => false
        | String c2 rest2 =>
            if isWhitespace2 c1 c2 then isBlank rest2
            else
              match rest2 with
              | EmptyString => false
              | String c3 rest3 =>
                  if isWhitespace3 c1 c2 c3 then isBlank rest3 else false
              end
        end
  end.

(** [result.papers.find(p => p.id === result.central_paper) || result.papers[0]] *)
Definition pickSelected (r : FetchResult) : option Paper :=
  match find (fun p => idIs p (result_central_paper r)) (result_papers r) with
  | Some centralPaper => Some centralPaper
  | None => hd_error (result_papers r)
  end.

(** [handleSearch] run to completion; [fetched] is the outcome of the
    awaited [fetchPaperNetwork]: [Some] result, or [None] when it threw. *)
Definition handleSearch (input : string) (fetched : option FetchResult)
    (st : AppState) : AppState :=
  if isBlank input then st
  else
    match fetched with
    | Some r =>
        mkAppState (result_papers r) (result_edges r) (pickSelected r)
                   false (yearRange st) false
    | None =>
        mkAppState (papers st) (connections st) (selectedPaper st)
                   false (yearRange st) false
    end.

(** The remaining writers of the state. *)
Definition setSelectedPaper (p : option Paper) (st : AppState) : AppState :=
  mkAppState (papers st) (connections st) p (loading st) (yearRange st) (showExamples st).

Definition setYearRange (r : Z * Z) (st : AppState) : AppState :=
  mkAppState (papers st) (connections st) (selectedPaper st) (loading st) r (showExamples st).

Definition resetTimeline (currentYear : Z) : AppState -> AppState :=
  setYearRange (1990, currentYear).

Definition lastFiveYears (currentYear : Z) : AppState -> AppState :=
  setYearRange (currentYear - 5, currentYear).

(** What the galaxy panel of [App] shows:
    [loading ? spinner : papers.length > 0 ? GalaxyVisualizer : placeholder]. *)
Definition galaxyMounted (st : AppState) : bool :=
  negb (loading st) && (0 <? List.length (papers st))%nat.

(** The state while [handleSearch] awaits the fetch: after
    [setLoading(true)] and [setShowExamples(false)]. *)
Definition searchPending (st : AppState) : AppState :=
  mkAppState (papers st) (connections st) (selectedPaper st)
             true (yearRange st) false.

(** The view state: the state of [App] and, by publication id, the
    [hovered] state of the mounted [Star]s. *)
Record ViewState : Type := mkViewState {
  view_app     : AppState;
  view_hovered : string -> bool
}.

(** The hover states a render of [st] leaves: a [Star] keeps its state only
    while the galaxy is mounted and shows its publication; one that is
    mounted anew starts from [useState(false)]. *)
Definition renderHover (st : AppState) (hovered : string -> bool) : string -> bool :=
  fun i =>
    galaxyMounted st
    && existsb (fun p => String.eqb (id p) i)
               (filteredPapers (papers st) (yearRange st))
    && hovered i.

(** [onPointerOver] and [onPointerOut] of the star of publication [i]. *)
Definition pointerOver (i : string) (v : ViewState) : ViewState :=
  mkViewState (view_app v)
    (renderHover (view_app v)
       (fun j => if String.eqb j i then true else view_hovered v j)).

Definition pointerOut (i : string) (v : ViewState) : ViewState :=
  mkViewState (view_app v)
    (fun j => if String.eqb j i then false else view_hovered v j).

(** [handleSearch] with the renders it causes: none for a blank input;
    otherwise one while the fetch is awaited, with [loading] on, and one
    when it has ended. *)
Definition handleSearchView (input : string) (fetched : option FetchResult)
    (v : ViewState) : ViewState :=
  if isBlank input then v
  else
    let pending := renderHover (searchPending (view_app v)) (view_hovered v) in
    let final := handleSearch input fetched (view_app v) in
    mkViewState final (renderHover final pending).

(** The layout as the specification words it, for [N] publications. *)
Definition referencePosition (N i : nat) (citationCount : option Z) : Vec3 :=
  let phi := acos (2 * INR i / INR N - 1) in
  let theta := (PI * (1 + sqrt 5) * INR i)%R in
  let r := (8 + IZR (or0 citationCount) * 0.05)%R in
  (r * sin phi * cos theta, r * sin phi * sin theta * 0.5, r * cos phi)%R.

(** ** Publication card ([PaperCard]) *)

(** [a.join(separator)] *)
Fixpoint join (separator : string) (a : list string) : string :=
  match a with
  | [] => ""
  | x :: rest =>
      match rest with
      | [] => x
      | _ :: _ => (x ++ separator ++ join separator rest)%string
      end
  end.

Definition formatAuthors (authors : option (list string)) : string :=
  match authors with
  | None => "Unknown authors"
  | Some a =>
      if Nat.eqb (List.length a) 0 then "Unknown authors"
      else if (List.length a <=? 3)%nat then join ", " a
      else (join ", " (firstn 3 a) ++ " et al.")%string
  end.

(** [formatAbstract]; lengths are counted in the characters of the model's
    strings. *)
Definition formatAbstract (text : option string) : string :=
  match text with
  | None => "No abstract available"
  | Some a =>
      if String.eqb a "" then "No abstract available"
      else if (300 <? String.length a)%nat then (substring 0 300 a ++ "...")%string
      else a
  end.

(** Truthiness of an optional string: present and not empty. *)
Definition truthyString (s : option string) : bool :=
  match s with
  | Some v => negb (String.eqb v "")
  | None => false
  end.

Definition orEmpty (s : option string) : string :=
  match s with
  | Some v => v
  | None => ""
  end.

(** ** Timeline bars and sliders ([TimelineSlider]) *)

(** [Math.max(...distribution, 1)] *)
Definition maxCount (distribution : list Z) : Z :=
  fold_right Z.max 1 distribution.

(** [Math.max(2, (count / maxCount) * 20)], the height of a bar in pixels. *)
Definition barHeight (distribution : list Z) (count : Z) : R :=
  Rmax 2 (IZR count / IZR (maxCount distribution) * 20).

(** The two sliders: [onChange([v, yearRange[1]])] and
    [onChange([yearRange[0], v])]. *)
Definition lowerSlider (v : Z) (yearRange : Z * Z) : Z * Z := (v, snd yearRange).
Definition upperSlider (v : Z) (yearRange : Z * Z) : Z * Z := (fst yearRange, v).

(** ** Camera focus and statistics overlay ([Galaxy], [GalaxyVisualizer]) *)

(** The effect on [selectedPaperId]: the point handed to [camera.lookAt]. *)
Definition lookAtTarget (papers : list Paper) (selectedPaperId : option string)
    : option Vec3 :=
  if truthyString selectedPaperId
  then option_map position (findById (positionedPapers papers) (orEmpty selectedPaperId))
  else None.

(** The "Years" figures of the overlay, shown for a non-empty list:
    [Math.min(...papers.map(p => p.year || 0))] and the same with [max]. *)
Definition overlayYears (papers : list Paper) : option (Z * Z) :=
  match map (fun p => or0 (year p)) papers with
  | [] => None
  | y :: ys => Some (fold_left Z.min ys y, fold_left Z.max ys y)
  end.

(** ** Fetching and normalising the graph ([App.fetchPaperNetwork], [usePapers]) *)

(** A publication as the endpoint sends it: every member may be absent. *)
Record RawPaper : Type := mkRawPaper {
  raw_id             : option string;
  raw_title          : option string;
  raw_authors        : option (list string);
  raw_year           : option Z;
  raw_citation_count : option Z;
  raw_fields         : option (list string);
  raw_cluster        : option Z;
  raw_abstract       : option string;
  raw_doi            : option string;
  raw_arxiv_id       : option string;
  raw_url            : option string
}.

(** [{...paper, id: paper.id || token, fields: paper.fields || [],
    authors: paper.authors || []}] *)
Definition normalizePaper (token : string) (raw : RawPaper) : Paper :=
  mkPaper (if truthyString (raw_id raw) then orEmpty (raw_id raw) else token)
          (raw_title raw)
          (match raw_authors raw with Some a => a | None => [] end)
          (raw_year raw)
          (raw_citation_count raw)
          (Some (match raw_fields raw with Some f => f | None => [] end))
          (raw_cluster raw)
          (raw_abstract raw)
          (raw_doi raw)
          (raw_arxiv_id raw)
          (raw_url raw).

(** The [map] over the fetched publications.  [random n] is the string of
    the n-th call of [Math.random().toString()]; a call is made only for a
    publication whose id is falsy.  Returns the list and the number of calls
    made so far. *)
Fixpoint normalizePapers (random : nat -> string) (calls : nat) (raws : list RawPaper)
    : list Paper * nat :=
  match raws with
  | [] => ([], calls)
  | raw :: rest =>
      if truthyString (raw_id raw)
      then let '(ps, n) := normalizePapers random calls rest in
           (normalizePaper "" raw :: ps, n)
      else let '(ps, n) := normalizePapers random (S calls) rest in
           (normalizePaper (random calls) raw :: ps, n)
  end.

Definition Stats : Type := list (string * string).

Record Network : Type := mkNetwork {
  net_papers        : option (list RawPaper);
  net_edges         : option (list Connection);
  net_central_paper : option string;
  net_stats         : option Stats
}.

Record ApiData : Type := mkApiData {
  data_success : bool;
  data_error   : option string;
  data_network : Network
}.

Record Response : Type := mkResponse {
  response_ok     : bool;
  response_status : Z;
  response_data   : ApiData
}.

(** How an awaited promise ends; a rejection is kept as its message. *)
Inductive Outcome (A : Type) : Type :=
  | Resolved (a : A)
  | Rejected (message : string).

Arguments Resolved {A} a.
Arguments Rejected {A} message.

(** The decimal numeral of an integer, as a template string prints it. *)
Definition decimal (n : Z) : string :=
  DecimalString.NilZero.string_of_int (Z.to_int n).

(** [App.fetchPaperNetwork]; [fetched] is how the request and the reading of
    its JSON body ended.  There is no test of [data.success], and
    [Object.values] of absent publications is a [TypeError]. *)
Definition fetchPaperNetwork (random : nat -> string) (fetched : Outcome Response)
    : Outcome FetchResult :=
  match fetched with
  | Rejected m => Rejected m
  | Resolved response =>
      if negb (response_ok response)
      then Rejected ("API error: " ++ decimal (response_status response))%string
      else
        let network := data_network (response_data response) in
        match net_papers network with
        | None => Rejected "Cannot convert undefined or null to object"
        | Some raws =>
            Resolved (mkFetchResult
                        (fst (normalizePapers random 0 raws))
                        (match net_edges network with Some e => e | None => [] end)
                        (net_central_paper network))
        end
  end.

Definition outcomeOption {A : Type} (o : Outcome A) : option A :=
  match o with
  | Resolved a => Some a
  | Rejected _ => None
  end.

(** A whole search of [App]: the fetch, then [handleSearch] on its outcome. *)
Definition search (random : nat -> string) (input : string)
    (fetched : Outcome Response) (st : AppState) : AppState :=
  handleSearch input (outcomeOption (fetchPaperNetwork random fetched)) st.

(** The state of the [usePapers] hook. *)
Record HookState : Type := mkHookState {
  hook_papers      : list Paper;
  hook_connections : list Connection;
  hook_loading     : bool;
  hook_error       : option string;
  hook_stats       : option Stats
}.

Definition hookInitial : HookState := mkHookState [] [] false None None.

(** [usePapers.fetchPaperNetwork] once [fetch] has answered: the state it
    leaves and what the promise gives.  The callback is memoised with no
    dependencies, so the [state] it spreads on failure is the state of the
    first render, [hookInitial]. *)
Definition hookFetch (random : nat -> string) (fetched : Outcome Response)
    (st : HookState) : HookState * Outcome HookState :=
  let failed (m : string) :=
    (mkHookState (hook_papers hookInitial) (hook_connections hookInitial)
                 false (Some m) (hook_stats hookInitial),
     Rejected m) in
  match fetched with
  | Rejected m => failed m
  | Resolved response =>
      if negb (response_ok response)
      then failed ("API error: " ++ decimal (response_status response))%string
      else if negb (data_success (response_data response))
      then failed (if truthyString (data_error (response_data response))
                   then orEmpty (data_error (response_data response))
                   else "Failed to analyze paper")
      else
        let network := data_network (response_data response) in
        let newState :=
          mkHookState
            (fst (normalizePapers random 0
                    (match net_papers network with Some r => r | None => [] end)))
            (match net_edges network with Some e => e | None => [] end)
            false None
            (Some (match net_stats network with Some s => s | None => [] end)) in
        (newState, Resolved newState)
  end.

(** ** First line of extracted text ([App.extractTitleFromPDF]) *)

Definition newline : ascii := ascii_of_nat 10.

(** The separator ["\n"]. *)
Definition lineFeed : string := String newline EmptyString.

(** [text.split('\n')]: the pieces between line feeds, at least one. *)
Fixpoint splitLines (text : string) : list string :=
  match text with
  | EmptyString => [EmptyString]
  | String c rest =>
      if Ascii.eqb c newline then EmptyString :: splitLines rest
      else match splitLines rest with
           | [] => [String c EmptyString]
           | line :: lines => String c line :: lines
           end
  end.

(** [lines[0] || ''] *)
Definition extractTitleFromPDF (text : string) : string :=
  match splitLines text with
  | [] => ""
  | line :: _ => if String.eqb line "" then "" else line
  end.

(** ** Properties of the resolver *)

Lemma keepCited_fold_split :
  forall ps pre p mid,
    (forall q, In q pre -> citations q <= citations p) ->
    (forall q, In q mid -> citations q < citations p) ->
    exists l1 m l2,
      pre ++ p :: mid ++ ps = l1 ++ m :: l2 /\
      fold_left keepCited ps p = m /\
      (forall q, In q l1 -> citations q <= citations m) /\
      (forall q, In q l2 -> citations q < citations m).
Proof.
  induction ps as [|x ps IH]; intros pre p mid Hpre Hmid.
  - exists pre, p, mid. rewrite app_nil_r. auto.
  - cbn [fold_left]. unfold keepCited at 2.
    destruct (citations p >? citations x) eqn:Hcmp.
    + apply Z.gtb_lt in Hcmp.
      destruct (IH pre p (mid ++ [x])) as (l1 & m & l2 & Heq & Hm & H1 & H2).
      * assumption.
      * intros q Hq. apply in_app_or in Hq. destruct Hq as [Hq|[->|[]]]; auto.
      * exists l1, m, l2. rewrite <- Heq, <- app_assoc. auto.
    + assert (Hle : citations p <= citations x).
      { destruct (Z.gtb_spec (citations p) (citations x)); [discriminate | lia]. }
      destruct (IH (pre ++ p :: mid) x []) as (l1 & m & l2 & Heq & Hm & H1 & H2).
      * intros q Hq. apply in_app_or in Hq. destruct Hq as [Hq|[->|Hq]].
        -- specialize (Hpre q Hq). lia.
        -- assumption.
        -- specialize (Hmid q Hq). lia.
      * intros q [].
      * exists l1, m, l2. rewrite <- Heq, <- app_assoc. auto.
Qed.

(** C1 (as stated, refuted): with two publications tied at the maximum the
    resolver returns the id of the later one, whereas the first-listed
    maximal publication is the earlier one. *)
Lemma central_tie_keeps_later :
  let papers := [bare "a" (Some 2020) (Some 5); bare "b" (Some 2018) (Some 5)] in
  centralPaperId papers = Some "b" /\
  firstMaximalId papers = Some "a" /\
  centralPaperId papers <> firstMaximalId papers.
Proof.
  cbv zeta. repeat split; try reflexivity. discriminate.
Qed.

(** C1 (amended): the empty list has no central id; for a non-empty list the
    resolver returns the id of a publication whose citation count (absent
    read as 0) is at least that of every publication before it and strictly
    greater than that of every publication after it, that is, the last
    maximal publication in list order. *)
Theorem central_is_last_maximal :
  forall papers,
    (papers = [] -> centralPaperId papers = None) /\
    (papers <> [] ->
     exists l1 m l2,
       papers = l1 ++ m :: l2 /\
       centralPaperId papers = Some (id m) /\
       (forall q, In q papers -> citations q <= citations m) /\
       (forall q, In q l2 -> citations q < citations m)).
Proof.
  intros papers. split.
  - intros ->. reflexivity.
  - intros Hne. destruct papers as [|p ps]; [congruence|].
    destruct (keepCited_fold_split ps [] p [])
      as (l1 & m & l2 & Heq & Hm & H1 & H2); try (intros q []).
    cbn [app] in Heq.
    exists l1, m, l2. split; [assumption|]. split.
    + cbn [centralPaperId]. rewrite Hm. reflexivity.
    + split; [|assumption].
      intros q Hq. rewrite Heq in Hq. apply in_app_or in Hq.
      destruct Hq as [Hq|[->|Hq]].
      * auto.
      * lia.
      * specialize (H2 q Hq). lia.
Qed.

Lemma central_is_last_maximal_witness :
  let papers := [bare "a" (Some 2020) (Some 100); bare "b" (Some 2018) (Some 5)] in
  papers <> [] /\
  exists l1 m l2,
    papers = l1 ++ m :: l2 /\
    centralPaperId papers = Some (id m) /\
    (forall q, In q papers -> citations q <= citations m) /\
    (forall q, In q l2 -> citations q < citations m).
Proof.
  cbv zeta.
  assert (Hne : [bare "a" (Some 2020) (Some 100); bare "b" (Some 2018) (Some 5)] <> [])
    by discriminate.
  split; [exact Hne|].
  exact (proj2 (central_is_last_maximal _) Hne).
Defined.

(** ** Properties of the year histogram *)

Lemma fold_min_le_max :
  forall ys y, fold_left Z.min ys y <= y <= fold_left Z.max ys y.
Proof.
  induction ys as [|x ys IH]; intros y; cbn [fold_left]; [lia|].
  pose proof (IH (Z.min y x)). pose proof (IH (Z.max y x)). lia.
Qed.

Lemma yearSpan_positive :
  forall currentYear papers, 1900 <= currentYear -> 1 <= yearSpan currentYear papers.
Proof.
  intros cy ps Hcy. unfold yearSpan, yearStats.
  destruct ps as [|p ps]; cbn [fst snd]; [lia|].
  destruct (validYears (p :: ps)) as [|y ys]; cbn [fst snd]; [lia|].
  pose proof (fold_min_le_max ys y). lia.
Qed.

Lemma bucketCount_positive :
  forall currentYear papers, 1900 <= currentYear -> 1 <= bucketCount currentYear papers.
Proof.
  intros cy ps Hcy. unfold bucketCount.
  pose proof (yearSpan_positive cy ps Hcy). lia.
Qed.

Lemma clampBucket_bounds :
  forall buckets bucket, 1 <= buckets -> 0 <= clampBucket buckets bucket <= buckets - 1.
Proof. intros buckets bucket Hb. unfold clampBucket. lia. Qed.

Lemma sum_zeroBuckets : forall n i, sumZ (map snd (zeroBuckets i n)) = 0.
Proof.
  induction n as [|n IH]; intros i; cbn; [reflexivity|].
  apply IH.
Qed.

Lemma sumZ_cons : forall x l, sumZ (x :: l) = x + sumZ l.
Proof. reflexivity. Qed.

Lemma sum_increment :
  forall d k, sumZ (map snd (increment k d)) = sumZ (map snd d) + 1.
Proof.
  induction d as [|[k' v] d IH]; intros k; cbn [increment].
  - reflexivity.
  - destruct (k =? k'); [cbn [map snd]; rewrite !sumZ_cons; lia|].
    destruct (k <? k'); cbn [map snd]; rewrite !sumZ_cons; [lia|].
    rewrite IH. lia.
Qed.

Lemma sum_countPaper_fold :
  forall currentYear papers l d,
    sumZ (map snd (fold_left (countPaper currentYear papers) l d))
    = sumZ (map snd d) + countIf yearTruthy l.
Proof.
  intros cy ps. unfold countIf.
  induction l as [|p l IH]; intros d; cbn [fold_left filter].
  - cbn. lia.
  - rewrite IH. unfold countPaper, yearTruthy.
    destruct (truthy (year p)).
    + rewrite sum_increment. cbn [List.length]. lia.
    + lia.
Qed.

Lemma keys_increment :
  forall n i d k,
    map fst d = map fst (zeroBuckets i n) ->
    i <= k < i + Z.of_nat n ->
    map fst (increment k d) = map fst d.
Proof.
  induction n as [|n IH]; intros i d k Hkeys Hk.
  - cbn in Hk. lia.
  - destruct d as [|[k' v] d]; [discriminate|].
    cbn [zeroBuckets map fst] in Hkeys. injection Hkeys as Hhead Htail. subst k'.
    cbn [increment]. destruct (Z.eqb_spec k i); [reflexivity|].
    destruct (Z.ltb_spec k i); [lia|].
    cbn [map fst]. f_equal. apply (IH (i + 1)); [assumption | lia].
Qed.



(** With only years after 1900 (or none) among the truthy ones, the two ways
    of counting agree. *)
Lemma countIf_ext :
  forall (f g : Paper -> bool) l,
    (forall p, In p l -> f p = g p) -> countIf f l = countIf g l.
Proof.
  intros f g l H. unfold countIf. f_equal. f_equal.
  induction l as [|p l IH]; [reflexivity|].
  cbn [filter]. rewrite (H p (or_introl eq_refl)).
  rewrite IH; [reflexivity|]. intros q Hq. apply H. now right.
Qed.




(** When no publication has a non-zero year at or before 1900, the sum is
    the number of publications with a year after 1900. *)
Lemma histogram_sum_valid_years :
  forall currentYear papers,
    (forall p, In p papers -> yearTruthy p = yearAfter1900 p) ->
    sumZ (getYearDistribution currentYear papers) = countIf yearAfter1900 papers.
Proof.
  intros cy ps H. unfold getYearDistribution.
  rewrite sum_countPaper_fold, sum_zeroBuckets.
  rewrite (countIf_ext _ _ _ H). lia.
Qed.

(** ** Properties of the layout *)

Lemma nth_error_mapi_from :
  forall (A B : Type) (f : A -> nat -> B) (l : list A) (k i : nat),
    nth_error (mapi_from f k l) i
    = option_map (fun x => f x (k + i)%nat) (nth_error l i).
Proof.
  intros A B f. induction l as [|x xs IH]; intros k i.
  - destruct i; reflexivity.
  - destruct i as [|i]; cbn [mapi_from nth_error option_map].
    + now rewrite Nat.add_0_r.
    + rewrite IH. now rewrite Nat.add_succ_r.
Qed.

Lemma length_mapi_from :
  forall (A B : Type) (f : A -> nat -> B) (l : list A) (k : nat),
    List.length (mapi_from f k l) = List.length l.
Proof.
  intros A B f. induction l as [|x xs IH]; intros k; cbn; [reflexivity|].
  now rewrite IH.
Qed.

Lemma nth_error_positionedPapers :
  forall papers i,
    nth_error (positionedPapers papers) i
    = option_map (fun p => place (List.length papers) p i) (nth_error papers i).
Proof.
  intros papers i. unfold positionedPapers, mapi.
  now rewrite nth_error_mapi_from.
Qed.

Lemma paper_of_place :
  forall total paper index, paper_of (place total paper index) = paper.
Proof.
  intros total paper index. unfold place.
  destruct (Nat.eqb total 1); reflexivity.
Qed.

Lemma papers_of_positioned :
  forall papers, map paper_of (positionedPapers papers) = papers.
Proof.
  intros papers. unfold positionedPapers, mapi.
  generalize (List.length papers) as total. generalize 0%nat as k.
  induction papers as [|p ps IH]; intros k total; cbn [mapi_from map].
  - reflexivity.
  - now rewrite paper_of_place, IH.
Qed.

(** C5: the layout equals its reference definition.  One publication is
    placed at the origin; with N > 1 publications the i-th one is placed at
    the point the reference formulas give for N, i and its citation count
    (absent read as 0). *)
Theorem layout_matches_reference :
  (forall p, map position (positionedPapers [p]) = [(0, 0, 0)%R]) /\
  (forall papers i p,
     (1 < List.length papers)%nat ->
     nth_error papers i = Some p ->
     option_map position (nth_error (positionedPapers papers) i)
     = Some (referencePosition (List.length papers) i (citation_count p))).
Proof.
  split.
  - intros p. reflexivity.
  - intros papers i p Hlen Hi.
    rewrite nth_error_positionedPapers, Hi. cbn [option_map].
    unfold place, referencePosition, citations.
    destruct (Nat.eqb_spec (List.length papers) 1) as [E|_]; [lia|].
    reflexivity.
Qed.

Lemma layout_matches_reference_witness :
  let a := bare "a" (Some 2020) (Some 100) in
  let b := bare "b" (Some 2018) (Some 5) in
  (1 < List.length [a; b])%nat /\
  nth_error [a; b] 1 = Some b /\
  option_map position (nth_error (positionedPapers [a; b]) 1)
  = Some (referencePosition 2 1 (Some 5)).
Proof.
  cbv zeta. split; [cbn [List.length]; lia|]. split; [reflexivity|].
  apply (proj2 layout_matches_reference
           [bare "a" (Some 2020) (Some 100); bare "b" (Some 2018) (Some 5)]
           1%nat (bare "b" (Some 2018) (Some 5)));
    [cbn [List.length]; lia | reflexivity].
Defined.

(** C10: the layout step returns a list of the same length, aligned with its
    input by index, whose i-th record carries the i-th input publication
    unchanged, the position being the only addition. *)
Theorem layout_preserves_publications :
  forall papers,
    List.length (positionedPapers papers) = List.length papers /\
    map paper_of (positionedPapers papers) = papers /\
    (forall i, option_map paper_of (nth_error (positionedPapers papers) i)
               = nth_error papers i).
Proof.
  intros papers. split; [|split].
  - unfold positionedPapers, mapi. apply length_mapi_from.
  - apply papers_of_positioned.
  - intros i. rewrite nth_error_positionedPapers.
    destruct (nth_error papers i) as [p|]; cbn [option_map]; [|reflexivity].
    now rewrite paper_of_place.
Qed.

(** ** Properties of the range filter *)

Lemma inYearRange_spec :
  forall lo hi paper,
    inYearRange (lo, hi) paper = true <->
    exists y, year paper = Some y /\ lo <= y <= hi.
Proof.
  intros lo hi paper. unfold inYearRange. cbn [fst snd].
  destruct (year paper) as [y|].
  - rewrite andb_true_iff, !Z.leb_le. split.
    + intros H. exists y. split; [reflexivity | lia].
    + intros (y' & [= <-] & H). lia.
  - split; [discriminate|]. intros (y & H & _). discriminate.
Qed.

(** C6: a publication passes the range [lo, hi] exactly when it has a year y
    with lo <= y <= hi; so (for lo <= hi) a year equal to lo or to hi
    passes, a year of lo - 1 or hi + 1 does not, and a publication without a
    year passes no range, nor does a year of 0 pass a range that starts
    after 0, as every range within the default does. *)
Theorem filter_inclusive :
  forall lo hi paper,
    (inYearRange (lo, hi) paper = true <->
     exists y, year paper = Some y /\ lo <= y <= hi) /\
    (lo <= hi -> year paper = Some lo -> inYearRange (lo, hi) paper = true) /\
    (lo <= hi -> year paper = Some hi -> inYearRange (lo, hi) paper = true) /\
    (year paper = Some (lo - 1) -> inYearRange (lo, hi) paper = false) /\
    (year paper = Some (hi + 1) -> inYearRange (lo, hi) paper = false) /\
    (year paper = None -> inYearRange (lo, hi) paper = false) /\
    (or0 (year paper) = 0 -> 0 < lo -> inYearRange (lo, hi) paper = false) /\
    (forall papers,
       In paper (filteredPapers papers (lo, hi)) <->
       In paper papers /\ inYearRange (lo, hi) paper = true) /\
    (forall papers,
       papersInRange papers (lo, hi) = List.length (filteredPapers papers (lo, hi))).
Proof.
  intros lo hi paper. split; [apply inYearRange_spec|].
  unfold inYearRange, or0. cbn [fst snd].
  split; [|split; [|split; [|split; [|split; [|split; [|split]]]]]].
  - intros Hle ->. apply andb_true_iff. rewrite !Z.leb_le. lia.
  - intros Hle ->. apply andb_true_iff. rewrite !Z.leb_le. lia.
  - intros ->. apply andb_false_iff. left. apply Z.leb_gt. lia.
  - intros ->. apply andb_false_iff. right. apply Z.leb_gt. lia.
  - intros ->. reflexivity.
  - destruct (year paper) as [y|]; [|reflexivity].
    intros -> Hlo. apply andb_false_iff. left. apply Z.leb_gt. lia.
  - intros papers. unfold filteredPapers. apply filter_In.
  - intros papers. reflexivity.
Qed.

Lemma filter_inclusive_witness :
  let p := bare "b" (Some 2015) None in
  2015 <= 2019 /\ year p = Some 2015 /\ inYearRange (2015, 2019) p = true.
Proof.
  cbv zeta.
  assert (H : 2015 <= 2019) by lia.
  split; [exact H|]. split; [reflexivity|].
  exact (proj1 (proj2 (filter_inclusive 2015 2019 (bare "b" (Some 2015) None)))
               H eq_refl).
Defined.

(** ** Properties of the connection curve generator *)

Lemma lerp_at_0 : forall c target, lerp c target 0 = c.
Proof.
  intros [r g b] [r' g' b']. unfold lerp. cbn [red green blue].
  f_equal; lra.
Qed.

Lemma lerp_at_1 : forall c target, lerp c target 1 = target.
Proof.
  intros [r g b] [r' g' b']. unfold lerp. cbn [red green blue].
  f_equal; lra.
Qed.

Lemma anchors_differ : anchorSecond <> anchorFirst.
Proof.
  intros H. apply (f_equal red) in H.
  unfold anchorSecond, anchorFirst, Color_of_hex in H. cbn [red] in H.
  change (Z.land (Z.shiftr 0x8B5CF6 16) 255) with 139 in H.
  change (Z.land (Z.shiftr 0x60A5FA 16) 255) with 96 in H.
  lra.
Qed.

(** The component itself blends by the strength it is given: strength 0 is
    the first anchor, strength 1 the second. *)
Lemma ConnectionLine_color :
  forall start finish s,
    line_color (ConnectionLine start finish (Some s))
    = lerp anchorFirst anchorSecond s.
Proof. reflexivity. Qed.

Lemma ConnectionLine_zero_strength :
  forall start finish,
    line_color (ConnectionLine start finish (Some 0%R)) = anchorFirst.
Proof. intros. rewrite ConnectionLine_color. apply lerp_at_0. Qed.

(** Opacity and width are floored for every strength in [0, 1]. *)
Lemma ConnectionLine_floors :
  forall start finish s,
    (0 <= s <= 1)%R ->
    (0.2 <= opacity (ConnectionLine start finish (Some s)))%R /\
    (0.3 <= lineWidth (ConnectionLine start finish (Some s)))%R.
Proof.
  intros start finish s Hs. cbn [ConnectionLine opacity lineWidth]. split.
  - lra.
  - apply Rmax_l.
Qed.

Lemma or1_zero : or1 (Some 0%R) = 1%R.
Proof. unfold or1. destruct (Req_dec_T 0 0); [reflexivity | contradiction]. Qed.

Lemma or1_nonzero : forall s, s <> 0%R -> or1 (Some s) = s.
Proof. intros s Hs. unfold or1. destruct (Req_dec_T s 0); [contradiction | reflexivity]. Qed.

(** Through [Galaxy], a connection of non-zero strength is drawn with the
    blend at its own strength. *)
Lemma connectionLine_color_nonzero :
  forall positioned c s line,
    strength c = Some s -> s <> 0%R ->
    connectionLine positioned c = Some line ->
    line_color line = lerp anchorFirst anchorSecond s.
Proof.
  intros positioned c s line Hs Hnz. unfold connectionLine.
  destruct (findById positioned (source c)); [|discriminate].
  destruct (findById positioned (target c)); [|discriminate].
  intros [= <-]. rewrite Hs, or1_nonzero by assumption. reflexivity.
Qed.

(** Through [Galaxy] too, a strength that is absent or within [0, 1] is drawn
    with opacity at least 0.2 and width at least 0.3. *)
Lemma connectionLine_floors :
  forall positioned c line,
    (forall s, strength c = Some s -> (0 <= s <= 1)%R) ->
    connectionLine positioned c = Some line ->
    (0.2 <= opacity line)%R /\ (0.3 <= lineWidth line)%R.
Proof.
  intros positioned c line Hrange. unfold connectionLine.
  destruct (findById positioned (source c)); [|discriminate].
  destruct (findById positioned (target c)); [|discriminate].
  intros [= <-]. apply ConnectionLine_floors.
  unfold or1. destruct (strength c) as [s|]; [|lra].
  destruct (Req_dec_T s 0); [lra|]. apply Hrange. reflexivity.
Qed.

(** C3 (the code at the failing input): a renderable connection of strength
    0 reaches [ConnectionLine] with strength 1, so it is drawn in the second
    anchor color, at width 2 and opacity 0.5, and not in the first anchor
    color. *)
Theorem zero_strength_drawn_at_full_strength :
  let papers := [bare "a" (Some 2020) (Some 100); bare "b" (Some 2018) (Some 5)] in
  let connection := mkConnection "a" "b" (Some 0%R) in
  exists line,
    connectionLine (positionedPapers papers) connection = Some line /\
    line_color line = anchorSecond /\
    line_color line <> anchorFirst /\
    lineWidth line = 2%R /\
    opacity line = 0.5%R.
Proof.
  cbv zeta. unfold connectionLine.
  cbn [positionedPapers mapi mapi_from List.length Nat.eqb place findById find
       source target strength paper_of id bare String.eqb Ascii.eqb Bool.eqb
       position].
  eexists. split; [reflexivity|].
  cbn [ConnectionLine line_color lineWidth opacity].
  rewrite or1_zero, lerp_at_1.
  split; [reflexivity|]. split; [apply anchors_differ|]. split.
  - rewrite Rmult_1_l. apply Rmax_right. lra.
  - lra.
Qed.

(** ** Properties of connection dropping *)

Lemma findById_absent :
  forall positioned wanted,
    ~ In wanted (map (fun p => id (paper_of p)) positioned) ->
    findById positioned wanted = None.
Proof.
  unfold findById. induction positioned as [|p ps IH]; intros wanted Hnot.
  - reflexivity.
  - cbn [find]. destruct (String.eqb_spec (id (paper_of p)) wanted) as [E|_].
    + exfalso. apply Hnot. left. exact E.
    + apply IH. intros Hin. apply Hnot. right. exact Hin.
Qed.

Lemma connectionLine_absent :
  forall positioned connection,
    findById positioned (source connection) = None \/
    findById positioned (target connection) = None ->
    connectionLine positioned connection = None.
Proof.
  intros positioned c [Hs|Ht]; unfold connectionLine.
  - now rewrite Hs.
  - rewrite Ht. destruct (findById positioned (source c)); reflexivity.
Qed.

(** C8: a connection whose source id or target id belongs to no positioned
    publication yields no line: the callback returns [null], and it does so
    without raising. *)
Theorem dangling_connection_dropped :
  forall positioned connection,
    ~ In (source connection) (map (fun p => id (paper_of p)) positioned) \/
    ~ In (target connection) (map (fun p => id (paper_of p)) positioned) ->
    connectionLine positioned connection = None.
Proof.
  intros positioned c [Hs|Ht]; apply connectionLine_absent.
  - left. apply findById_absent, Hs.
  - right. apply findById_absent, Ht.
Qed.

Lemma dangling_connection_dropped_witness :
  let positioned := positionedPapers [bare "a" (Some 2020) (Some 100)] in
  let connection := mkConnection "a" "b" (Some 0.5%R) in
  ~ In (target connection) (map (fun p => id (paper_of p)) positioned) /\
  connectionLine positioned connection = None.
Proof.
  cbv zeta.
  assert (H : ~ In (target (mkConnection "a" "b" (Some 0.5%R)))
                (map (fun p => id (paper_of p))
                     (positionedPapers [bare "a" (Some 2020) (Some 100)]))).
  { cbn. intros [E|[]]. discriminate E. }
  split; [exact H|].
  exact (dangling_connection_dropped _ _ (or_intror H)).
Defined.

(** In the rendered galaxy the entry of a dangling connection is [null]. *)
Lemma Galaxy_drops_dangling :
  forall papers connections selected hovered view i connection,
    Galaxy papers connections selected hovered = Ok view ->
    nth_error connections i = Some connection ->
    (~ In (source connection) (map id papers) \/
     ~ In (target connection) (map id papers)) ->
    nth_error (view_lines view) i = Some None.
Proof.
  intros papers conns selected hovered view i c Hview Hi Hdangling.
  unfold Galaxy in Hview.
  destruct (sequence _) as [stars|e]; cbn [bind] in Hview; [|discriminate].
  injection Hview as <-. cbn [view_lines].
  rewrite nth_error_map, Hi. cbn [option_map]. f_equal.
  apply connectionLine_absent.
  rewrite <- (papers_of_positioned papers), map_map in Hdangling.
  destruct Hdangling as [H|H]; [left | right]; apply findById_absent, H.
Qed.

(** ** Properties of the color encoder *)

Lemma ownProperty_truthy :
  forall field c, ownProperty fieldColors field = Some c -> isTruthy (JsString c) = true.
Proof.
  intros field c. unfold fieldColors. cbn [ownProperty].
  repeat match goal with
         | |- context [String.eqb field ?k] => destruct (String.eqb field k)
         end;
    intros [= <-]; reflexivity.
Qed.

Lemma scanFields_plain :
  forall fs, forallb plainLabel fs = true -> scanFields fs = None.
Proof.
  induction fs as [|f fs IH]; cbn [forallb scanFields]; [reflexivity|].
  intros H. apply andb_true_iff in H. destruct H as [Hf Hfs].
  unfold plainLabel, recognized in Hf. unfold getProperty.
  destruct (ownProperty fieldColors f); [discriminate|].
  destruct (existsb (String.eqb f) objectPrototypeMembers); [discriminate|].
  cbn [isTruthy]. apply IH, Hfs.
Qed.

(** Fallback stability away from inherited member names: with only plain
    labels the color is the palette entry at index |cluster| mod 8. *)
Lemma getColor_fallback :
  forall paper fs,
    fields paper = Some fs -> forallb plainLabel fs = true ->
    getColor paper = arrayGet clusterColors (Z.abs (or0 (cluster paper)) mod 8).
Proof.
  intros paper fs Hf Hplain. unfold getColor. rewrite Hf.
  rewrite (scanFields_plain fs Hplain).
  destruct (0 <? List.length fs)%nat; unfold clusterIdx;
    (rewrite Z.rem_mod_nonneg; [reflexivity | lia | cbn; lia]).
Qed.

Lemma getColor_fallback_defined :
  forall paper fs,
    fields paper = Some fs -> forallb plainLabel fs = true ->
    exists c, getColor paper = JsString c /\ In c clusterColors.
Proof.
  intros paper fs Hf Hplain. rewrite (getColor_fallback paper fs Hf Hplain).
  pose proof (Z.mod_pos_bound (Z.abs (or0 (cluster paper))) 8 ltac:(lia)) as Hb.
  unfold arrayGet. destruct (Z.ltb_spec (Z.abs (or0 (cluster paper)) mod 8) 0); [lia|].
  destruct (nth_error clusterColors (Z.to_nat (Z.abs (or0 (cluster paper)) mod 8)))
    as [c|] eqn:E.
  - exists c. split; [reflexivity|]. eapply nth_error_In, E.
  - apply nth_error_None in E. cbn [clusterColors List.length] in E. lia.
Qed.

(** The first recognized label wins when only plain labels come before it. *)
Lemma getColor_first_recognized :
  forall paper before field after c,
    fields paper = Some (before ++ field :: after) ->
    forallb plainLabel before = true ->
    ownProperty fieldColors field = Some c ->
    getColor paper = JsString c.
Proof.
  intros paper before field rest c Hf Hplain Hown. unfold getColor. rewrite Hf.
  assert (Hlen : (0 <? List.length (before ++ field :: rest))%nat = true).
  { apply Nat.ltb_lt. rewrite length_app. cbn [List.length]. lia. }
  rewrite Hlen. clear Hlen Hf.
  induction before as [|f before IH]; cbn [app scanFields].
  - unfold getProperty. rewrite Hown, (ownProperty_truthy field c Hown). reflexivity.
  - cbn [forallb] in Hplain. apply andb_true_iff in Hplain. destruct Hplain as [Hf Hrest].
    unfold plainLabel, recognized in Hf. unfold getProperty at 1.
    destruct (ownProperty fieldColors f); [discriminate|].
    destruct (existsb (String.eqb f) objectPrototypeMembers); [discriminate|].
    cbn [isTruthy]. apply IH, Hrest.
Qed.

(** C9 (the code at the failing input): the label "constructor" is not in
    the topic table, yet reading it from the table yields the inherited
    member, which is truthy; the encoder returns it instead of the palette
    entry of the cluster, so two publications of the same cluster without a
    recognized label are encoded differently, and a recognized label that
    follows it is not reached. *)
Theorem getColor_inherited_member :
  let p := mkPaper "p" (Some "P") [] None None (Some ["constructor"]) (Some 0)
                   None None None None in
  let q := mkPaper "q" (Some "Q") [] None None (Some []) (Some 0)
                   None None None None in
  let r := mkPaper "r" (Some "R") [] None None (Some ["constructor"; "Physics"])
                   (Some 0) None None None None in
  recognized "constructor" = false /\
  cluster p = cluster q /\
  getColor q = JsString "#FF6B6B" /\
  getColor p = JsInherited "constructor" /\
  getColor p <> getColor q /\
  getColor r = JsInherited "constructor".
Proof.
  cbv zeta. repeat split; try reflexivity. discriminate.
Qed.

(** ** Properties of node rendering *)

Lemma titleLabel_ok :
  forall paper t n, title paper = Some t -> exists l, titleLabel paper n = Ok l.
Proof. intros paper t n H. unfold titleLabel. rewrite H. eauto. Qed.

(** A titled publication renders in every highlight state. *)
Lemma Star_titled_ok :
  forall paper t pos isSelected isCentral hovered,
    title paper = Some t ->
    exists view, Star paper pos isSelected isCentral hovered = Ok view.
Proof.
  intros paper t pos sel cen hov Ht. unfold Star, titleLabel. rewrite Ht.
  destruct cen; destruct (hov && negb sel); cbn [bind]; eauto.
Qed.

(** An ordinary node (not central, not hovered) renders whatever is missing. *)
Lemma Star_ordinary_ok :
  forall paper pos isSelected,
    exists view, Star paper pos isSelected false false = Ok view.
Proof.
  intros paper pos sel. unfold Star. cbn [andb bind]. eauto.
Qed.

(** C7 (the code at the failing input): a publication without a title halts
    the rendering as soon as it is the central node or is hovered, where the
    label reads [paper.title.substring]; alone in its list it is the central
    node, so the whole galaxy fails to render. *)
Theorem untitled_central_node_throws :
  let p := mkPaper "a" None [] (Some 2020) (Some 3) (Some []) None
                   None None None None in
  let e := TypeError "Cannot read properties of undefined (reading 'substring')" in
  centralPaperId [p] = Some "a" /\
  Star p (0, 0, 0)%R false true false = Throw e /\
  Star p (0, 0, 0)%R false false true = Throw e /\
  Galaxy [p] [] None (fun _ => false) = Throw e.
Proof.
  cbv zeta. repeat split; reflexivity.
Qed.

(** ** Properties of the state handlers *)

Lemma pickSelected_member :
  forall r p, pickSelected r = Some p -> In p (result_papers r).
Proof.
  intros r p. unfold pickSelected.
  destruct (find _ (result_papers r)) as [c|] eqn:E.
  - intros [= <-]. apply find_some in E. tauto.
  - destruct (result_papers r) as [|x xs]; cbn [hd_error]; [discriminate|].
    intros [= <-]. now left.
Qed.

Lemma pickSelected_none :
  forall r, pickSelected r = None <-> result_papers r = [].
Proof.
  intros r. unfold pickSelected. split.
  - destruct (find _ (result_papers r)) as [c|]; [discriminate|].
    destruct (result_papers r); [reflexivity | discriminate].
  - intros ->. reflexivity.
Qed.

(** C4 (as stated, refuted): after a successful fetch without a central hint
    the first publication is selected although a later one is cited more,
    and a narrowed year range is kept rather than reset to the default. *)
Lemma handleSearch_keeps_range_and_selects_first :
  let a := bare "a" (Some 2020) (Some 1) in
  let b := bare "b" (Some 2018) (Some 100) in
  let before := setYearRange (2015, 2019) (initialState 2026) in
  let after := handleSearch "1706.03762" (Some (mkFetchResult [a; b] [] None)) before in
  option_map id (selectedPaper after) = Some "a" /\
  centralPaperId (papers after) = Some "b" /\
  option_map id (selectedPaper after) <> centralPaperId (papers after) /\
  yearRange after = (2015, 2019) /\
  yearRange after <> defaultYearRange 2026.
Proof.
  cbv zeta. repeat split; try reflexivity; discriminate.
Qed.

(** C4 (amended): a successful fetch replaces the publications and the
    connections by the fetched ones and selects the first publication whose
    id is the central hint of the result, or else the first publication of
    the result, or none when the result has no publication; the hover state
    of every node is cleared, the galaxy having been taken down while the
    fetch was awaited; the year range is left as it was. *)
Theorem handleSearch_success :
  forall input r v,
    isBlank input = false ->
    let v' := handleSearchView input (Some r) v in
    let st' := view_app v' in
    papers st' = result_papers r /\
    connections st' = result_edges r /\
    yearRange st' = yearRange (view_app v) /\
    (forall p, find (fun p => idIs p (result_central_paper r)) (result_papers r) = Some p ->
               selectedPaper st' = Some p) /\
    (find (fun p => idIs p (result_central_paper r)) (result_papers r) = None ->
     selectedPaper st' = hd_error (result_papers r)) /\
    (forall p, selectedPaper st' = Some p -> In p (result_papers r)) /\
    (selectedPaper st' = None <-> result_papers r = []) /\
    (forall i, view_hovered v' i = false).
Proof.
  intros input r v Hinput. cbv zeta. unfold handleSearchView. rewrite Hinput.
  cbn [view_app view_hovered]. unfold handleSearch. rewrite Hinput.
  cbn [papers connections yearRange selectedPaper].
  split; [reflexivity|]. split; [reflexivity|]. split; [reflexivity|].
  split; [|split; [|split; [|split]]].
  - intros p Hp. unfold pickSelected. now rewrite Hp.
  - intros Hnone. unfold pickSelected. now rewrite Hnone.
  - apply pickSelected_member.
  - apply pickSelected_none.
  - intros i. unfold renderHover at 1.
    replace (renderHover (searchPending (view_app v)) (view_hovered v) i) with false.
    + apply andb_false_r.
    + unfold renderHover, galaxyMounted, searchPending. reflexivity.
Qed.

Lemma handleSearch_success_witness :
  let a := bare "a" (Some 2020) (Some 1) in
  let b := bare "b" (Some 2018) (Some 100) in
  let loaded := handleSearch "1706.03762" (Some (mkFetchResult [a] [] None))
                  (setYearRange (2015, 2026) (initialState 2026)) in
  let v := pointerOver "a" (mkViewState loaded (fun _ => false)) in
  let v' := handleSearchView "1706.03762"
              (Some (mkFetchResult [a; b] [] (Some "b"))) v in
  isBlank "1706.03762" = false /\
  view_hovered v "a" = true /\
  papers (view_app v') = [a; b] /\
  yearRange (view_app v') = (2015, 2026) /\
  selectedPaper (view_app v') = Some b /\
  view_hovered v' "a" = false.
Proof.
  cbv zeta.
  pose proof (handleSearch_success "1706.03762"
                (mkFetchResult [bare "a" (Some 2020) (Some 1);
                                bare "b" (Some 2018) (Some 100)] [] (Some "b"))
                (pointerOver "a"
                   (mkViewState
                      (handleSearch "1706.03762"
                         (Some (mkFetchResult [bare "a" (Some 2020) (Some 1)] [] None))
                         (setYearRange (2015, 2026) (initialState 2026)))
                      (fun _ => false)))
                eq_refl) as H.
  cbv zeta in H. destruct H as (Hp & _ & Hy & Hsel & _ & _ & _ & Hh).
  split; [reflexivity|]. split; [reflexivity|].
  split; [exact Hp|]. split; [exact Hy|].
  split; [apply Hsel; reflexivity | apply Hh].
Defined.

(** ** Further properties of the year statistics and the histogram *)

Lemma fold_min_spec :
  forall ys y,
    In (fold_left Z.min ys y) (y :: ys) /\
    (forall x, In x (y :: ys) -> fold_left Z.min ys y <= x).
Proof.
  induction ys as [|z ys IH]; intros y; cbn [fold_left].
  - split; [now left|]. intros x [<-|[]]. lia.
  - destruct (IH (Z.min y z)) as [Hin Hle]. split.
    + destruct Hin as [E|Hin].
      * rewrite <- E. destruct (Z.min_spec y z) as [[_ ->]|[_ ->]];
          [now left | right; now left].
      * right. now right.
    + intros x [<-|[<-|Hx]].
      * specialize (Hle (Z.min y z) (or_introl eq_refl)). lia.
      * specialize (Hle (Z.min y z) (or_introl eq_refl)). lia.
      * apply Hle. now right.
Qed.

Lemma fold_max_spec :
  forall ys y,
    In (fold_left Z.max ys y) (y :: ys) /\
    (forall x, In x (y :: ys) -> x <= fold_left Z.max ys y).
Proof.
  induction ys as [|z ys IH]; intros y; cbn [fold_left].
  - split; [now left|]. intros x [<-|[]]. lia.
  - destruct (IH (Z.max y z)) as [Hin Hle]. split.
    + destruct Hin as [E|Hin].
      * rewrite <- E. destruct (Z.max_spec y z) as [[_ ->]|[_ ->]];
          [right; now left | now left].
      * right. now right.
    + intros x [<-|[<-|Hx]].
      * specialize (Hle (Z.max y z) (or_introl eq_refl)). lia.
      * specialize (Hle (Z.max y z) (or_introl eq_refl)). lia.
      * apply Hle. now right.
Qed.

Lemma validYears_In :
  forall papers y,
    In y (validYears papers) <->
    1900 < y /\ exists p, In p papers /\ or0 (year p) = y.
Proof.
  intros papers y. unfold validYears. rewrite filter_In, in_map_iff, Z.ltb_lt.
  split.
  - intros [(p & E & Hp) Hy]. split; [assumption|]. exists p. auto.
  - intros [Hy (p & Hp & E)]. split; [|assumption]. exists p. auto.
Qed.

Lemma yearStats_valid_years :
  forall currentYear papers p,
    In p papers -> 1900 < or0 (year p) ->
    In (fst (yearStats currentYear papers)) (validYears papers) /\
    In (snd (yearStats currentYear papers)) (validYears papers) /\
    fst (yearStats currentYear papers) <= or0 (year p)
      <= snd (yearStats currentYear papers).
Proof.
  intros cy papers p Hp Hy.
  assert (Hv : In (or0 (year p)) (validYears papers)).
  { apply validYears_In. split; [assumption|]. exists p. auto. }
  unfold yearStats. destruct papers as [|p0 ps]; [contradiction|].
  destruct (validYears (p0 :: ps)) as [|y ys] eqn:E; [contradiction|].
  cbn [fst snd].
  destruct (fold_min_spec ys y) as [Hmin_in Hmin_le].
  destruct (fold_max_spec ys y) as [Hmax_in Hmax_le].
  split; [assumption|]. split; [assumption|]. split; auto.
Qed.

Lemma yearStats_valid_bounds :
  forall currentYear papers p,
    In p papers -> 1900 < or0 (year p) ->
    1900 < fst (yearStats currentYear papers) /\
    fst (yearStats currentYear papers) <= or0 (year p)
      <= snd (yearStats currentYear papers).
Proof.
  intros cy papers p Hp Hy.
  destruct (yearStats_valid_years cy papers p Hp Hy) as (Hmin & _ & Hb).
  apply validYears_In in Hmin. tauto.
Qed.

(** X1: when some publication has a year after 1900, the statistics are the
    least and the greatest such year: both are years of publications of the
    list, both are after 1900, and every year after 1900 lies between
    them. *)
Theorem yearStats_bounds :
  forall currentYear papers p,
    In p papers -> 1900 < or0 (year p) ->
    let stats := yearStats currentYear papers in
    fst stats <= or0 (year p) <= snd stats /\
    1900 < fst stats /\
    (exists q, In q papers /\ or0 (year q) = fst stats) /\
    (exists q, In q papers /\ or0 (year q) = snd stats).
Proof.
  intros cy papers p Hp Hy. cbv zeta.
  destruct (yearStats_valid_years cy papers p Hp Hy) as (Hmin & Hmax & Hb).
  apply validYears_In in Hmin. apply validYears_In in Hmax.
  split; [exact Hb|]. split; [tauto|]. split; tauto.
Qed.

Lemma yearStats_bounds_witness :
  let papers := [bare "a" (Some 2010) None; bare "b" None None;
                 bare "c" (Some 2020) None; bare "d" (Some 1850) None] in
  let p := bare "c" (Some 2020) None in
  In p papers /\ 1900 < or0 (year p) /\
  fst (yearStats 2026 papers) <= or0 (year p) <= snd (yearStats 2026 papers).
Proof.
  cbv zeta.
  assert (Hin : In (bare "c" (Some 2020) None)
                   [bare "a" (Some 2010) None; bare "b" None None;
                    bare "c" (Some 2020) None; bare "d" (Some 1850) None])
    by (right; right; left; reflexivity).
  assert (Hy : 1900 < or0 (year (bare "c" (Some 2020) None))) by reflexivity.
  split; [exact Hin|]. split; [exact Hy|].
  exact (proj1 (yearStats_bounds 2026 _ _ Hin Hy)).
Defined.

Lemma rawBucket_in_range :
  forall minYear range y,
    minYear <= y -> y - minYear < range ->
    0 <= rawBucket minYear range (Z.min range 20) y <= Z.min range 20 - 1.
Proof.
  intros m r y Hlo Hhi. unfold rawBucket.
  assert (Hr : 0 < r) by lia.
  assert (Hb : 0 < Z.min r 20) by lia.
  split.
  - apply Z.div_pos; nia.
  - assert ((y - m) * Z.min r 20 / r < Z.min r 20); [|lia].
    apply Z.div_lt_upper_bound; nia.
Qed.

Lemma clamp_idle_within_stats :
  forall currentYear papers y,
    fst (yearStats currentYear papers) <= y <= snd (yearStats currentYear papers) ->
    safeBucket currentYear papers y
    = rawBucket (fst (yearStats currentYear papers))
                (yearSpan currentYear papers)
                (bucketCount currentYear papers) y.
Proof.
  intros cy ps y Hy. unfold safeBucket, clampBucket, bucketCount.
  pose proof (rawBucket_in_range (fst (yearStats cy ps)) (yearSpan cy ps) y) as H.
  unfold yearSpan in *. lia.
Qed.

(** X2: for a year between the least and the greatest year of the
    statistics the computed bucket already lies within the buckets: the
    clamp changes nothing. *)
Theorem safeBucket_unclamped :
  forall currentYear papers y,
    fst (yearStats currentYear papers) <= y <= snd (yearStats currentYear papers) ->
    safeBucket currentYear papers y
    = rawBucket (fst (yearStats currentYear papers))
                (yearSpan currentYear papers)
                (bucketCount currentYear papers) y /\
    0 <= rawBucket (fst (yearStats currentYear papers))
                   (yearSpan currentYear papers)
                   (bucketCount currentYear papers) y
      <= bucketCount currentYear papers - 1.
Proof.
  intros cy ps y Hy. split; [apply clamp_idle_within_stats, Hy|].
  pose proof (rawBucket_in_range (fst (yearStats cy ps)) (yearSpan cy ps) y) as H.
  unfold bucketCount, yearSpan in *. lia.
Qed.

Lemma safeBucket_unclamped_witness :
  let papers := [bare "a" (Some 1990) None; bare "b" (Some 2020) None] in
  fst (yearStats 2026 papers) <= 2005 <= snd (yearStats 2026 papers) /\
  safeBucket 2026 papers 2005 = 9.
Proof.
  cbv zeta.
  assert (H : fst (yearStats 2026 [bare "a" (Some 1990) None; bare "b" (Some 2020) None])
              <= 2005
              <= snd (yearStats 2026 [bare "a" (Some 1990) None; bare "b" (Some 2020) None]))
    by (cbn; lia).
  split; [exact H|].
  rewrite (proj1 (safeBucket_unclamped 2026 _ 2005 H)). reflexivity.
Defined.

(** X3: when the years span at most 20 years there is one bucket per year:
    the bucket of a year within the statistics is its distance from the
    least year. *)
Theorem one_bucket_per_year :
  forall currentYear papers y,
    yearSpan currentYear papers <= 20 ->
    fst (yearStats currentYear papers) <= y <= snd (yearStats currentYear papers) ->
    bucketCount currentYear papers = yearSpan currentYear papers /\
    safeBucket currentYear papers y = y - fst (yearStats currentYear papers).
Proof.
  intros cy ps y Hspan Hy.
  assert (Hb : bucketCount cy ps = yearSpan cy ps) by (unfold bucketCount; lia).
  split; [exact Hb|].
  rewrite (clamp_idle_within_stats cy ps y Hy), Hb. unfold rawBucket.
  apply Z.div_mul. unfold yearSpan. lia.
Qed.

Lemma one_bucket_per_year_witness :
  let papers := [bare "a" (Some 2010) None; bare "b" (Some 2020) None] in
  yearSpan 2026 papers <= 20 /\
  fst (yearStats 2026 papers) <= 2015 <= snd (yearStats 2026 papers) /\
  safeBucket 2026 papers 2015 = 2015 - fst (yearStats 2026 papers).
Proof.
  cbv zeta.
  assert (Hs : yearSpan 2026 [bare "a" (Some 2010) None; bare "b" (Some 2020) None] <= 20)
    by (vm_compute; discriminate).
  assert (Hy : fst (yearStats 2026 [bare "a" (Some 2010) None; bare "b" (Some 2020) None])
               <= 2015
               <= snd (yearStats 2026 [bare "a" (Some 2010) None; bare "b" (Some 2020) None]))
    by (cbn; lia).
  split; [exact Hs|]. split; [exact Hy|].
  exact (proj2 (one_bucket_per_year 2026 _ 2015 Hs Hy)).
Defined.

(** X4: the bucket of a year never decreases as the year grows. *)
Theorem safeBucket_monotone :
  forall currentYear papers y1 y2,
    1900 <= currentYear -> y1 <= y2 ->
    safeBucket currentYear papers y1 <= safeBucket currentYear papers y2.
Proof.
  intros cy ps y1 y2 Hcy Hy.
  pose proof (yearSpan_positive cy ps Hcy) as Hspan.
  pose proof (bucketCount_positive cy ps Hcy) as Hb.
  unfold safeBucket, clampBucket, rawBucket.
  assert (H : (y1 - fst (yearStats cy ps)) * bucketCount cy ps / yearSpan cy ps
              <= (y2 - fst (yearStats cy ps)) * bucketCount cy ps / yearSpan cy ps).
  { apply Z.div_le_mono; [lia | nia]. }
  lia.
Qed.

Lemma safeBucket_monotone_witness :
  let papers := [bare "a" (Some 1990) None; bare "b" (Some 2020) None] in
  1900 <= 2026 /\ 1995 <= 2010 /\
  safeBucket 2026 papers 1995 <= safeBucket 2026 papers 2010.
Proof.
  cbv zeta.
  assert (H1 : 1900 <= 2026) by lia.
  assert (H2 : 1995 <= 2010) by lia.
  split; [exact H1|]. split; [exact H2|].
  exact (safeBucket_monotone 2026 _ 1995 2010 H1 H2).
Defined.

Lemma nth_zeroBuckets :
  forall n i j, nth j (map snd (zeroBuckets i n)) 0 = 0.
Proof.
  induction n as [|n IH]; intros i j; cbn [zeroBuckets map snd].
  - destruct j; reflexivity.
  - destruct j as [|j]; [reflexivity|]. cbn [nth]. apply IH.
Qed.

Lemma nth_increment :
  forall n i d k j,
    map fst d = map fst (zeroBuckets i n) ->
    i <= k < i + Z.of_nat n ->
    nth j (map snd (increment k d)) 0
    = nth j (map snd d) 0 + (if Z.of_nat j =? k - i then 1 else 0).
Proof.
  induction n as [|n IH]; intros i d k j Hkeys Hk.
  - cbn in Hk. lia.
  - destruct d as [|[k' v] d]; [discriminate|].
    cbn [zeroBuckets map fst] in Hkeys. injection Hkeys as Hhead Htail. subst k'.
    cbn [increment]. destruct (Z.eqb_spec k i) as [->|Hne].
    + cbn [map snd]. destruct j as [|j]; cbn [nth].
      * replace (Z.of_nat 0 =? i - i) with true; [lia|].
        symmetry. apply Z.eqb_eq. lia.
      * replace (Z.of_nat (S j) =? i - i) with false; [lia|].
        symmetry. apply Z.eqb_neq. lia.
    + destruct (Z.ltb_spec k i); [lia|].
      cbn [map snd]. destruct j as [|j]; cbn [nth].
      * replace (Z.of_nat 0 =? k - i) with false; [lia|].
        symmetry. apply Z.eqb_neq. lia.
      * rewrite (IH (i + 1) d k j Htail) by lia.
        replace (Z.of_nat (S j) =? k - i) with (Z.of_nat j =? k - (i + 1));
          [reflexivity|].
        destruct (Z.eqb_spec (Z.of_nat j) (k - (i + 1)));
          destruct (Z.eqb_spec (Z.of_nat (S j)) (k - i)); try reflexivity; lia.
Qed.

(** The publications a bucket counts. *)
Lemma nth_countPaper_fold :
  forall currentYear papers, 1900 <= currentYear ->
  forall j l d,
    map fst d = map fst (zeroBuckets 0 (Z.to_nat (bucketCount currentYear papers))) ->
    nth j (map snd (fold_left (countPaper currentYear papers) l d)) 0
    = nth j (map snd d) 0
      + countIf (fun p => yearTruthy p
                          && (safeBucket currentYear papers (or0 (year p)) =? Z.of_nat j))
                l.
Proof.
  intros cy ps Hcy j. pose proof (bucketCount_positive cy ps Hcy) as Hb.
  unfold countIf.
  induction l as [|p l IH]; intros d Hkeys; cbn [fold_left filter].
  - cbn. lia.
  - assert (Hrange : 0 <= safeBucket cy ps (or0 (year p))
                     < 0 + Z.of_nat (Z.to_nat (bucketCount cy ps))).
    { unfold safeBucket.
      pose proof (clampBucket_bounds (bucketCount cy ps)
                    (rawBucket (fst (yearStats cy ps)) (yearSpan cy ps)
                               (bucketCount cy ps) (or0 (year p))) Hb).
      lia. }
    assert (Hstep : map fst (countPaper cy ps d p) = map fst d).
    { unfold countPaper. destruct (truthy (year p)); [|reflexivity].
      apply (keys_increment (Z.to_nat (bucketCount cy ps)) 0); assumption. }
    rewrite IH by (rewrite Hstep; assumption).
    unfold countPaper at 1. unfold yearTruthy at 2.
    destruct (truthy (year p)); cbn [andb].
    + rewrite (nth_increment (Z.to_nat (bucketCount cy ps)) 0) by assumption.
      rewrite Z.sub_0_r, (Z.eqb_sym (Z.of_nat j)).
      destruct (safeBucket cy ps (or0 (year p)) =? Z.of_nat j);
        cbn [List.length]; lia.
    + lia.
Qed.

(** X5: each entry of the histogram is the number of publications with a
    present, non-zero year whose bucket is the index of the entry. *)
Theorem histogram_bucket_counts :
  forall currentYear papers (k : nat),
    1900 <= currentYear ->
    nth k (getYearDistribution currentYear papers) 0
    = countIf (fun p => yearTruthy p
                        && (safeBucket currentYear papers (or0 (year p)) =? Z.of_nat k))
              papers.
Proof.
  intros cy ps k Hcy. unfold getYearDistribution.
  rewrite (nth_countPaper_fold cy ps Hcy) by reflexivity.
  rewrite nth_zeroBuckets. lia.
Qed.

Lemma histogram_bucket_counts_witness :
  let papers := [bare "a" (Some 2010) None; bare "b" (Some 2015) None;
                 bare "c" (Some 2015) None; bare "d" (Some 2020) None] in
  1900 <= 2026 /\
  nth 5 (getYearDistribution 2026 papers) 0 = 2.
Proof.
  cbv zeta.
  assert (H : 1900 <= 2026) by lia.
  split; [exact H|].
  rewrite (histogram_bucket_counts 2026 _ 5 H). reflexivity.
Defined.

Lemma increment_nonneg :
  forall d k,
    Forall (fun v => 0 <= v) (map snd d) ->
    Forall (fun v => 0 <= v) (map snd (increment k d)).
Proof.
  induction d as [|[k' v] d IH]; intros k Hd; cbn [increment].
  - cbn [map snd]. constructor; [lia | constructor].
  - cbn [map snd] in Hd. inversion Hd as [|? ? Hv Hrest]; subst.
    destruct (k =? k'); [cbn [map snd]; constructor; [lia | assumption]|].
    destruct (k <? k'); cbn [map snd].
    + constructor; [lia|]. constructor; assumption.
    + constructor; [assumption|]. apply IH, Hrest.
Qed.

Lemma zeroBuckets_nonneg :
  forall n i, Forall (fun v => 0 <= v) (map snd (zeroBuckets i n)).
Proof.
  induction n as [|n IH]; intros i; cbn [zeroBuckets map snd]; constructor;
    [lia | apply IH].
Qed.

Lemma distribution_nonneg :
  forall currentYear papers,
    Forall (fun v => 0 <= v) (getYearDistribution currentYear papers).
Proof.
  intros cy ps. unfold getYearDistribution.
  generalize (zeroBuckets_nonneg (Z.to_nat (bucketCount cy ps)) 0).
  generalize (zeroBuckets 0 (Z.to_nat (bucketCount cy ps))) as d.
  generalize ps at 2 as l.
  induction l as [|p l IH]; intros d Hd; cbn [fold_left]; [assumption|].
  apply IH. unfold countPaper. destruct (truthy (year p)); [|assumption].
  apply increment_nonneg, Hd.
Qed.

Lemma maxCount_spec :
  forall d, 1 <= maxCount d /\ (forall v, In v d -> v <= maxCount d).
Proof.
  unfold maxCount. induction d as [|x d [IH1 IH2]]; cbn [fold_right].
  - split; [lia|]. intros v [].
  - split; [lia|]. intros v [<-|Hv]; [lia|]. specialize (IH2 v Hv). lia.
Qed.

Lemma maxCount_least :
  forall d bound,
    1 <= bound -> (forall v, In v d -> v <= bound) -> maxCount d <= bound.
Proof.
  unfold maxCount. induction d as [|x d IH]; intros bound Hb Hd; cbn [fold_right].
  - exact Hb.
  - assert (fold_right Z.max 1 d <= bound).
    { apply IH; [assumption|]. intros v Hv. apply Hd. now right. }
    pose proof (Hd x (or_introl eq_refl)). lia.
Qed.

(** X6: every bar of the timeline is between 2 and 20 pixels high; a bucket
    that holds the greatest count of the histogram is exactly 20 high when
    that count is at least 1, and an empty bucket is exactly 2 high, so that
    a histogram that counted no publication has all its bars at 2. *)
Theorem barHeight_bounds :
  forall currentYear papers count,
    In count (getYearDistribution currentYear papers) ->
    (2 <= barHeight (getYearDistribution currentYear papers) count <= 20)%R /\
    (1 <= count ->
     (forall c, In c (getYearDistribution currentYear papers) -> c <= count) ->
     barHeight (getYearDistribution currentYear papers) count = 20%R) /\
    (count = 0 ->
     barHeight (getYearDistribution currentYear papers) count = 2%R).
Proof.
  intros cy ps count Hin.
  pose proof (distribution_nonneg cy ps) as Hnn.
  rewrite Forall_forall in Hnn. specialize (Hnn count Hin).
  destruct (maxCount_spec (getYearDistribution cy ps)) as [Hm1 Hm2].
  specialize (Hm2 count Hin).
  pose proof (maxCount_least (getYearDistribution cy ps) count) as Hleast.
  unfold barHeight.
  set (m := maxCount (getYearDistribution cy ps)) in *.
  assert (HmR : (1 <= IZR m)%R) by (apply IZR_le; exact Hm1).
  assert (HcR : (0 <= IZR count <= IZR m)%R) by (split; apply IZR_le; lia).
  assert (Hq : (0 <= IZR count / IZR m <= 1)%R).
  { split.
    - apply Rmult_le_pos; [lra|]. left. apply Rinv_0_lt_compat. lra.
    - apply (Rmult_le_reg_r (IZR m)); [lra|].
      unfold Rdiv. rewrite Rmult_assoc, Rinv_l by lra. lra. }
  split; [|split].
  - split; [apply Rmax_l|]. apply Rmax_lub; lra.
  - intros Hpos Hmax. specialize (Hleast Hpos Hmax).
    assert (E : count = m) by lia. rewrite E.
    unfold Rdiv. rewrite Rinv_r by lra.
    rewrite Rmult_1_l. apply Rmax_right. lra.
  - intros ->. unfold Rdiv. rewrite Rmult_0_l, Rmult_0_l.
    apply Rmax_left. lra.
Qed.

Lemma barHeight_bounds_witness :
  let papers := [bare "a" (Some 2010) None; bare "b" (Some 2015) None;
                 bare "c" (Some 2015) None] in
  In 2 (getYearDistribution 2026 papers) /\
  1 <= 2 /\
  (forall c, In c (getYearDistribution 2026 papers) -> c <= 2) /\
  barHeight (getYearDistribution 2026 papers) 2 = 20%R.
Proof.
  cbv zeta.
  assert (H : In 2 (getYearDistribution 2026
                      [bare "a" (Some 2010) None; bare "b" (Some 2015) None;
                       bare "c" (Some 2015) None]))
    by (vm_compute; tauto).
  assert (Hpos : 1 <= 2) by lia.
  assert (Hmax : forall c,
             In c (getYearDistribution 2026
                     [bare "a" (Some 2010) None; bare "b" (Some 2015) None;
                      bare "c" (Some 2015) None]) -> c <= 2).
  { intros c Hc. vm_compute in Hc.
    repeat (destruct Hc as [<-|Hc]; [lia|]). contradiction. }
  split; [exact H|]. split; [exact Hpos|]. split; [exact Hmax|].
  exact (proj1 (proj2 (barHeight_bounds 2026 _ 2 H)) Hpos Hmax).
Defined.

(** ** Further properties of the range filter *)

Lemma filter_none :
  forall (A : Type) (f : A -> bool) (l : list A),
    (forall x, In x l -> f x = false) -> filter f l = [].
Proof.
  intros A f. induction l as [|x l IH]; intros H; [reflexivity|].
  cbn [filter]. rewrite (H x (or_introl eq_refl)).
  apply IH. intros y Hy. apply H. now right.
Qed.

Lemma inYearRange_swapped :
  forall lo hi paper, hi < lo -> inYearRange (lo, hi) paper = false.
Proof.
  intros lo hi paper Hswap. unfold inYearRange. cbn [fst snd].
  destruct (year paper) as [y|]; [|reflexivity].
  destruct (Z.leb_spec lo y); destruct (Z.leb_spec y hi); try reflexivity. lia.
Qed.

(** X7: a range whose lower end is above its upper end, as a lower slider
    dragged past the upper one produces, lets no publication through. *)
Theorem swapped_range_filters_everything :
  forall papers lo hi,
    hi < lo ->
    filteredPapers papers (lo, hi) = [] /\
    papersInRange papers (lo, hi) = 0%nat /\
    filteredPapers papers (lowerSlider lo (upperSlider hi (lo, hi))) = [].
Proof.
  intros papers lo hi Hswap.
  assert (H : filter (inYearRange (lo, hi)) papers = []).
  { apply filter_none. intros p _. apply inYearRange_swapped, Hswap. }
  unfold filteredPapers, papersInRange, lowerSlider, upperSlider. cbn [fst snd].
  rewrite H. auto.
Qed.

Lemma swapped_range_filters_everything_witness :
  let papers := [bare "a" (Some 2010) None; bare "b" (Some 2015) None] in
  2010 < 2015 /\ filteredPapers papers (2015, 2010) = [].
Proof.
  cbv zeta.
  assert (H : 2010 < 2015) by lia.
  split; [exact H|].
  exact (proj1 (swapped_range_filters_everything _ 2015 2010 H)).
Defined.

(** X8: filtering by a range and then by a range inside it is filtering by
    the inner range alone. *)
Theorem filter_narrowing :
  forall papers lo hi lo' hi',
    lo <= lo' -> hi' <= hi ->
    filteredPapers (filteredPapers papers (lo, hi)) (lo', hi')
    = filteredPapers papers (lo', hi').
Proof.
  intros papers lo hi lo' hi' Hlo Hhi. unfold filteredPapers.
  induction papers as [|p ps IH]; [reflexivity|].
  cbn [filter].
  destruct (inYearRange (lo', hi') p) eqn:Einner.
  - assert (Eouter : inYearRange (lo, hi) p = true).
    { apply inYearRange_spec in Einner. destruct Einner as (y & Hy & Hr).
      apply inYearRange_spec. exists y. split; [assumption | lia]. }
    rewrite Eouter. cbn [filter]. rewrite Einner, IH. reflexivity.
  - destruct (inYearRange (lo, hi) p); [cbn [filter]; rewrite Einner|]; apply IH.
Qed.

Lemma filter_narrowing_witness :
  let papers := [bare "a" (Some 2010) None; bare "b" (Some 2015) None;
                 bare "c" (Some 2019) None; bare "d" (Some 2020) None] in
  2000 <= 2015 /\ 2019 <= 2026 /\
  filteredPapers (filteredPapers papers (2000, 2026)) (2015, 2019)
  = filteredPapers papers (2015, 2019).
Proof.
  cbv zeta.
  assert (H1 : 2000 <= 2015) by lia.
  assert (H2 : 2019 <= 2026) by lia.
  split; [exact H1|]. split; [exact H2|].
  exact (filter_narrowing _ 2000 2026 2015 2019 H1 H2).
Defined.

(** X9: with the sliders on the least and the greatest year of the
    statistics, the publications in range are exactly those with a year
    after 1900, provided there is one. *)
Theorem full_range_counts_valid_years :
  forall currentYear papers p,
    In p papers -> 1900 < or0 (year p) ->
    Z.of_nat (papersInRange papers (yearStats currentYear papers))
    = countIf yearAfter1900 papers.
Proof.
  intros cy papers p Hp Hy. unfold papersInRange.
  change (countIf (inYearRange (yearStats cy papers)) papers
          = countIf yearAfter1900 papers).
  apply countIf_ext. intros q Hq.
  destruct (yearStats cy papers) as [lo hi] eqn:E.
  unfold yearAfter1900.
  destruct (Z.ltb_spec 1900 (or0 (year q))) as [Hvalid|Hinvalid].
  - pose proof (yearStats_valid_bounds cy papers q Hq Hvalid) as Hb.
    rewrite E in Hb. cbn [fst snd] in Hb.
    apply inYearRange_spec. destruct (year q) as [y|]; cbn [or0] in *; [|lia].
    exists y. split; [reflexivity | lia].
  - pose proof (yearStats_valid_bounds cy papers p Hp Hy) as Hb.
    rewrite E in Hb. cbn [fst snd] in Hb.
    unfold inYearRange. cbn [fst snd].
    destruct (year q) as [y|]; cbn [or0] in *; [|reflexivity].
    destruct (Z.leb_spec lo y); [|reflexivity]. lia.
Qed.

Lemma full_range_counts_valid_years_witness :
  let papers := [bare "a" (Some 2010) None; bare "b" None None;
                 bare "c" (Some 2020) None; bare "d" (Some 1850) None] in
  let p := bare "c" (Some 2020) None in
  In p papers /\ 1900 < or0 (year p) /\
  Z.of_nat (papersInRange papers (yearStats 2026 papers)) = 2.
Proof.
  cbv zeta.
  assert (Hin : In (bare "c" (Some 2020) None)
                   [bare "a" (Some 2010) None; bare "b" None None;
                    bare "c" (Some 2020) None; bare "d" (Some 1850) None])
    by (right; right; left; reflexivity).
  assert (Hy : 1900 < or0 (year (bare "c" (Some 2020) None))) by reflexivity.
  split; [exact Hin|]. split; [exact Hy|].
  rewrite (full_range_counts_valid_years 2026 _ _ Hin Hy). reflexivity.
Defined.

(** ** Further properties of the encoder *)

Lemma ln_10_pos : (0 < ln 10)%R.
Proof. rewrite <- ln_1. apply ln_increasing; lra. Qed.

(** X12: the size of a node is 0.3 for a publication without citations and
    never decreases as the citation count grows from 0. *)
Theorem starSize_monotone :
  forall p q,
    0 <= citations p <= citations q ->
    (0.3 <= starSize p <= starSize q)%R /\
    (citations p = 0 -> starSize p = 0.3%R).
Proof.
  intros p q [Hp Hpq]. unfold starSize.
  pose proof ln_10_pos as H10.
  assert (Hmono : forall a b, 0 <= a <= b ->
                    (ln (IZR (a + 1)) / ln 10 <= ln (IZR (b + 1)) / ln 10)%R).
  { intros a b [Ha Hab]. unfold Rdiv.
    apply Rmult_le_compat_r; [left; apply Rinv_0_lt_compat, H10|].
    destruct (Z.eq_dec a b) as [->|Hne]; [lra|].
    left. apply ln_increasing; [apply IZR_lt; lia | apply IZR_lt; lia]. }
  assert (H0 : (ln (IZR (0 + 1)) / ln 10 = 0)%R).
  { cbn [Z.add]. rewrite ln_1. unfold Rdiv. lra. }
  pose proof (Hmono 0 (citations p) ltac:(lia)) as H1.
  pose proof (Hmono (citations p) (citations q) ltac:(lia)) as H2.
  rewrite H0 in H1. split; [lra|].
  intros ->. rewrite H0. lra.
Qed.

Lemma starSize_monotone_witness :
  let p := bare "b" (Some 2018) (Some 5) in
  let q := bare "a" (Some 2020) (Some 100) in
  0 <= citations p <= citations q /\ (0.3 <= starSize p <= starSize q)%R.
Proof.
  cbv zeta.
  assert (H : 0 <= citations (bare "b" (Some 2018) (Some 5))
              <= citations (bare "a" (Some 2020) (Some 100)))
    by (cbn; lia).
  split; [exact H|].
  exact (proj1 (starSize_monotone _ _ H)).
Defined.

(** ** Further properties of the connection lines *)

Lemma findById_present :
  forall positioned wanted,
    In wanted (map (fun p => id (paper_of p)) positioned) ->
    exists p, findById positioned wanted = Some p /\ id (paper_of p) = wanted.
Proof.
  unfold findById. induction positioned as [|p ps IH]; intros wanted Hin.
  - contradiction.
  - cbn [find]. destruct (String.eqb_spec (id (paper_of p)) wanted) as [E|Hne].
    + exists p. auto.
    + destruct Hin as [E|Hin]; [contradiction|]. apply IH, Hin.
Qed.

Lemma findById_ids :
  forall papers wanted,
    In wanted (map (fun p => id (paper_of p)) (positionedPapers papers))
    <-> In wanted (map id papers).
Proof.
  intros papers wanted.
  rewrite <- (map_map paper_of id), papers_of_positioned. reflexivity.
Qed.

(** X13: a connection is drawn exactly when both its source id and its
    target id are ids of publications of the list. *)
Theorem connection_drawn_iff :
  forall papers connection,
    (exists line, connectionLine (positionedPapers papers) connection = Some line)
    <-> In (source connection) (map id papers) /\
        In (target connection) (map id papers).
Proof.
  intros papers c. rewrite <- !findById_ids. split.
  - intros [line Hline]. unfold connectionLine in Hline.
    destruct (findById _ (source c)) as [s|] eqn:Es; [|discriminate].
    destruct (findById _ (target c)) as [t|] eqn:Et; [|discriminate].
    unfold findById in Es, Et. apply find_some in Es. apply find_some in Et.
    destruct Es as [Hs Es]. destruct Et as [Ht Et].
    apply String.eqb_eq in Es. apply String.eqb_eq in Et.
    split; apply in_map_iff; eauto.
  - intros [Hs Ht].
    destruct (findById_present _ _ Hs) as (s & Es & _).
    destruct (findById_present _ _ Ht) as (t & Et & _).
    unfold connectionLine. rewrite Es, Et. eauto.
Qed.

(** X14: on [0, 1] the width and the opacity of a line grow with the
    strength, the width never above 2 and the opacity never above 0.5. *)
Theorem ConnectionLine_weight_monotone :
  forall start finish s s',
    (0 <= s <= s')%R -> (s' <= 1)%R ->
    (lineWidth (ConnectionLine start finish (Some s))
     <= lineWidth (ConnectionLine start finish (Some s')) <= 2)%R /\
    (opacity (ConnectionLine start finish (Some s))
     <= opacity (ConnectionLine start finish (Some s')) <= 0.5)%R.
Proof.
  intros start finish s s' [Hs Hss] Hs'. cbn [ConnectionLine lineWidth opacity].
  repeat split.
  - apply Rmax_lub; [apply Rmax_l|].
    apply Rle_trans with (s' * 2)%R; [lra | apply Rmax_r].
  - apply Rmax_lub; lra.
  - lra.
  - lra.
Qed.

Lemma ConnectionLine_weight_monotone_witness :
  (0 <= 0.25 <= 0.5)%R /\ (0.5 <= 1)%R /\
  (lineWidth (ConnectionLine (0, 0, 0)%R (1, 1, 1)%R (Some 0.25%R))
   <= lineWidth (ConnectionLine (0, 0, 0)%R (1, 1, 1)%R (Some 0.5%R)))%R.
Proof.
  assert (H1 : (0 <= 0.25 <= 0.5)%R) by lra.
  assert (H2 : (0.5 <= 1)%R) by lra.
  split; [exact H1|]. split; [exact H2|].
  exact (proj1 (proj1 (ConnectionLine_weight_monotone
                         (0, 0, 0)%R (1, 1, 1)%R 0.25%R 0.5%R H1 H2))).
Defined.

Lemma lerp_channel_between :
  forall a b alpha,
    (0 <= alpha <= 1)%R ->
    (Rmin a b <= a + (b - a) * alpha <= Rmax a b)%R.
Proof.
  intros a b alpha Halpha.
  destruct (Rle_dec a b) as [Hab|Hab].
  - rewrite Rmin_left, Rmax_right by assumption. nra.
  - rewrite Rmin_right, Rmax_left by lra. nra.
Qed.

(** X15: for a strength in [0, 1] every channel of the color of a line lies
    between the same channel of the two anchor colors. *)
Theorem ConnectionLine_color_between_anchors :
  forall start finish s,
    (0 <= s <= 1)%R ->
    let c := line_color (ConnectionLine start finish (Some s)) in
    (Rmin (red anchorFirst) (red anchorSecond) <= red c
       <= Rmax (red anchorFirst) (red anchorSecond))%R /\
    (Rmin (green anchorFirst) (green anchorSecond) <= green c
       <= Rmax (green anchorFirst) (green anchorSecond))%R /\
    (Rmin (blue anchorFirst) (blue anchorSecond) <= blue c
       <= Rmax (blue anchorFirst) (blue anchorSecond))%R.
Proof.
  intros start finish s Hs. cbv zeta.
  cbn [ConnectionLine line_color lerp red green blue].
  repeat split; apply lerp_channel_between; assumption.
Qed.

Lemma ConnectionLine_color_between_anchors_witness :
  (0 <= 0.5 <= 1)%R /\
  (Rmin (red anchorFirst) (red anchorSecond)
   <= red (line_color (ConnectionLine (0, 0, 0)%R (1, 1, 1)%R (Some 0.5%R)))
   <= Rmax (red anchorFirst) (red anchorSecond))%R.
Proof.
  assert (H : (0 <= 0.5 <= 1)%R) by lra.
  split; [exact H|].
  exact (proj1 (ConnectionLine_color_between_anchors
                  (0, 0, 0)%R (1, 1, 1)%R 0.5%R H)).
Defined.

(** ** Further properties of the rendered galaxy *)

Lemma sequence_ok_iff :
  forall (A : Type) (l : list (result A)),
    (exists out, sequence l = Ok out) <-> Forall (fun m => exists a, m = Ok a) l.
Proof.
  intros A. induction l as [|m ms IH]; cbn [sequence].
  - split; [constructor | eauto].
  - split.
    + intros [out H]. destruct m as [a|e]; cbn [bind] in H; [|discriminate].
      destruct (sequence ms) as [rest|e]; cbn [bind] in H; [|discriminate].
      constructor; [eauto|]. apply IH. eauto.
    + intros H. inversion H as [|? ? [a ->] Hms]; subst.
      apply IH in Hms. destruct Hms as [rest ->]. cbn [bind]. eauto.
Qed.

Lemma sequence_length :
  forall (A : Type) (l : list (result A)) out,
    sequence l = Ok out -> List.length out = List.length l.
Proof.
  intros A. induction l as [|m ms IH]; intros out; cbn [sequence].
  - intros [= <-]. reflexivity.
  - destruct m as [a|e]; cbn [bind]; [|discriminate].
    destruct (sequence ms) as [rest|e]; cbn [bind]; [|discriminate].
    intros [= <-]. cbn [List.length]. now rewrite (IH rest).
Qed.

Lemma Star_ok_iff :
  forall paper pos isSelected isCentral hovered,
    (exists view, Star paper pos isSelected isCentral hovered = Ok view)
    <-> (isCentral || (hovered && negb isSelected) = true -> title paper <> None).
Proof.
  intros paper pos sel cen hov. unfold Star, titleLabel.
  destruct (title paper) as [t|].
  - split; [intros _ _; discriminate|]. intros _.
    destruct cen; destruct (hov && negb sel); cbn [bind]; eauto.
  - destruct cen; cbn [bind orb].
    + split; [intros [v H]; discriminate | intros H; now destruct H].
    + destruct (hov && negb sel); cbn [bind].
      * split; [intros [v H]; discriminate | intros H; now destruct H].
      * split; [intros _ H; discriminate | eauto].
Qed.

(** X16: the galaxy renders exactly when every publication that is the
    central node, or is hovered without being selected, has a title. *)
Theorem Galaxy_renders_iff :
  forall papers connections selected hovered,
    (exists view, Galaxy papers connections selected hovered = Ok view)
    <-> (forall p, In p papers ->
           idIs p (centralPaperId papers)
           || (hovered (id p) && negb (idIs p selected)) = true ->
           title p <> None).
Proof.
  intros papers conns selected hovered. unfold Galaxy.
  set (star := fun p : PositionedPaper =>
                 Star (paper_of p) (position p) (idIs (paper_of p) selected)
                      (idIs (paper_of p) (centralPaperId papers))
                      (hovered (id (paper_of p)))).
  transitivity (exists stars, sequence (map star (positionedPapers papers)) = Ok stars).
  { split.
    - intros [view H]. destruct (sequence _) as [stars|e]; [eauto | discriminate].
    - intros [stars ->]. cbn [bind]. eauto. }
  rewrite sequence_ok_iff, Forall_map, Forall_forall. split.
  - intros H p Hp.
    rewrite <- (papers_of_positioned papers) in Hp. apply in_map_iff in Hp.
    destruct Hp as (pp & <- & Hpp).
    exact (proj1 (Star_ok_iff _ _ _ _ _) (H pp Hpp)).
  - intros H pp Hpp. apply (proj2 (Star_ok_iff _ _ _ _ _)). apply H.
    rewrite <- (papers_of_positioned papers) at 1. apply in_map, Hpp.
Qed.

Lemma Star_position :
  forall paper pos isSelected isCentral hovered view,
    Star paper pos isSelected isCentral hovered = Ok view ->
    star_position view = pos.
Proof.
  intros paper pos sel cen hov view. unfold Star.
  destruct (if cen then _ else _) as [c|e]; cbn [bind]; [|discriminate].
  destruct (if hov && negb sel then _ else _) as [h|e]; cbn [bind]; [|discriminate].
  intros [= <-]. reflexivity.
Qed.

Lemma sequence_star_positions :
  forall (sel cen hov : PositionedPaper -> bool) l stars,
    sequence (map (fun p => Star (paper_of p) (position p) (sel p) (cen p) (hov p)) l)
    = Ok stars ->
    map star_position stars = map position l.
Proof.
  intros sel cen hov. induction l as [|pp pps IH]; intros stars; cbn [map sequence].
  - intros [= <-]. reflexivity.
  - destruct (Star (paper_of pp) (position pp) (sel pp) (cen pp) (hov pp))
      as [v|e] eqn:Ev; cbn [bind]; [|discriminate].
    destruct (sequence _) as [rest|e]; cbn [bind]; [|discriminate].
    intros [= <-]. cbn [map]. rewrite (Star_position _ _ _ _ _ _ Ev).
    f_equal. apply IH. reflexivity.
Qed.

(** X17: a galaxy that renders has one star per publication, in list order
    at the positions of the layout, and one entry per connection. *)
Theorem Galaxy_view_shape :
  forall papers connections selected hovered view,
    Galaxy papers connections selected hovered = Ok view ->
    List.length (view_stars view) = List.length papers /\
    List.length (view_lines view) = List.length connections /\
    map star_position (view_stars view) = map position (positionedPapers papers).
Proof.
  intros papers conns selected hovered view H. unfold Galaxy in H.
  destruct (sequence _) as [stars|e] eqn:E; cbn [bind] in H; [|discriminate].
  injection H as <-. cbn [view_stars view_lines].
  split; [|split].
  - rewrite (sequence_length _ _ _ E), length_map.
    rewrite <- (length_map paper_of), papers_of_positioned. reflexivity.
  - apply length_map.
  - exact (sequence_star_positions
             (fun p => idIs (paper_of p) selected)
             (fun p => idIs (paper_of p) (centralPaperId papers))
             (fun p => hovered (id (paper_of p))) _ _ E).
Qed.

Lemma Galaxy_view_shape_witness :
  let papers := [bare "a" (Some 2020) (Some 100); bare "b" (Some 2018) (Some 5)] in
  exists view,
    Galaxy papers [mkConnection "a" "b" None] None (fun _ => false) = Ok view /\
    List.length (view_stars view) = List.length papers.
Proof.
  cbv zeta. eexists. split; [reflexivity|].
  refine (proj1 (Galaxy_view_shape
                   [bare "a" (Some 2020) (Some 100); bare "b" (Some 2018) (Some 5)]
                   [mkConnection "a" "b" None] None (fun _ => false) _ eq_refl)).
Defined.

Lemma filter_id_absent :
  forall l i,
    ~ In i (map id l) -> filter (fun p => idIs p (Some i)) l = [].
Proof.
  intros l i Hnot. apply filter_none. intros p Hp. cbn [idIs].
  apply String.eqb_neq. intros E. apply Hnot. rewrite <- E. apply in_map, Hp.
Qed.

(** X18: when the ids of a non-empty list are pairwise distinct, exactly one
    publication is marked as the central node. *)
Theorem central_node_unique :
  forall papers,
    papers <> [] -> NoDup (map id papers) ->
    List.length (filter (fun p => idIs p (centralPaperId papers)) papers) = 1%nat.
Proof.
  intros papers Hne Hnodup. destruct papers as [|p ps]; [congruence|].
  destruct (keepCited_fold_split ps [] p [])
    as (l1 & m & l2 & Heq & Hm & _ & _); try (intros q []).
  cbn [app centralPaperId] in *. rewrite Hm, Heq. rewrite Heq in Hnodup.
  rewrite map_app in Hnodup. cbn [map] in Hnodup.
  pose proof (NoDup_remove_2 _ _ _ Hnodup) as Hnot.
  assert (Hm_central : idIs m (Some (id m)) = true) by apply String.eqb_refl.
  rewrite filter_app. cbn [filter]. rewrite Hm_central.
  rewrite (filter_id_absent l1), (filter_id_absent l2).
  - reflexivity.
  - intros H. apply Hnot. apply in_or_app. now right.
  - intros H. apply Hnot. apply in_or_app. now left.
Qed.

Lemma central_node_unique_witness :
  let papers := [bare "a" (Some 2020) (Some 5); bare "b" (Some 2018) (Some 5)] in
  papers <> [] /\ NoDup (map id papers) /\
  List.length (filter (fun p => idIs p (centralPaperId papers)) papers) = 1%nat.
Proof.
  cbv zeta.
  assert (Hne : [bare "a" (Some 2020) (Some 5); bare "b" (Some 2018) (Some 5)] <> [])
    by discriminate.
  assert (Hnd : NoDup (map id [bare "a" (Some 2020) (Some 5);
                               bare "b" (Some 2018) (Some 5)])).
  { cbn. constructor.
    - intros [E|[]]. discriminate E.
    - constructor; [intros [] | constructor]. }
  split; [exact Hne|]. split; [exact Hnd|].
  exact (central_node_unique _ Hne Hnd).
Defined.

(** ** Properties of the camera focus and of the overlay *)

(** X19: the camera is aimed exactly when the selected id is not empty and
    is the id of a publication of the list, and then at the position the
    layout gives to a publication carrying that id. *)
Theorem lookAtTarget_spec :
  forall papers selected,
    (lookAtTarget papers selected = None <->
     truthyString selected = false \/ ~ In (orEmpty selected) (map id papers)) /\
    (forall target,
       lookAtTarget papers selected = Some target ->
       exists p, In p (positionedPapers papers) /\
                 Some (id (paper_of p)) = selected /\ position p = target).
Proof.
  intros papers selected. unfold lookAtTarget. split.
  - destruct (truthyString selected); [|split; auto].
    split.
    + intros H. right. intros Hin. apply findById_ids in Hin.
      destruct (findById_present _ _ Hin) as (p & E & _).
      rewrite E in H. discriminate.
    + intros [H|H]; [discriminate|].
      rewrite findById_absent; [reflexivity|]. now rewrite findById_ids.
  - intros target. destruct selected as [s|]; cbn [truthyString orEmpty];
      [|discriminate].
    destruct (negb (String.eqb s "")); [|discriminate].
    destruct (findById (positionedPapers papers) s) as [p|] eqn:E; [|discriminate].
    cbn [option_map]. intros [= <-]. unfold findById in E.
    apply find_some in E. destruct E as [Hin E]. apply String.eqb_eq in E.
    exists p. rewrite E. auto.
Qed.

Lemma filteredPapers_ids :
  forall papers r p,
    NoDup (map id papers) -> In p papers -> inYearRange r p = false ->
    ~ In (id p) (map id (filteredPapers papers r)).
Proof.
  intros papers r p. unfold filteredPapers.
  induction papers as [|q qs IH]; intros Hnd Hp Hr; [contradiction|].
  cbn [map] in Hnd. inversion Hnd as [|? ? Hq Hqs]; subst.
  cbn [filter]. destruct Hp as [->|Hp].
  - rewrite Hr. intros Hin. apply Hq.
    apply in_map_iff in Hin. destruct Hin as (x & E & Hx).
    apply filter_In in Hx. rewrite <- E. apply in_map. tauto.
  - destruct (inYearRange r q).
    + cbn [map]. intros [E|Hin].
      * apply Hq. rewrite E. apply in_map, Hp.
      * exact (IH Hqs Hp Hr Hin).
    + exact (IH Hqs Hp Hr).
Qed.

(** X20: when ids are pairwise distinct and the selected publication falls
    outside the year range, the filtered galaxy neither aims the camera nor
    marks any star as selected. *)
Theorem filtered_out_selection :
  forall papers r p,
    NoDup (map id papers) -> In p papers -> inYearRange r p = false ->
    lookAtTarget (filteredPapers papers r) (Some (id p)) = None /\
    filter (fun q => idIs q (Some (id p))) (filteredPapers papers r) = [].
Proof.
  intros papers r p Hnd Hp Hr.
  pose proof (filteredPapers_ids papers r p Hnd Hp Hr) as Hnot. split.
  - unfold lookAtTarget. destruct (truthyString (Some (id p))); [|reflexivity].
    cbn [orEmpty]. rewrite findById_absent; [reflexivity|].
    now rewrite findById_ids.
  - apply filter_id_absent, Hnot.
Qed.

Lemma filtered_out_selection_witness :
  let a := bare "a" (Some 2020) (Some 100) in
  let b := bare "b" (Some 2010) (Some 5) in
  NoDup (map id [a; b]) /\ In b [a; b] /\ inYearRange (2015, 2026) b = false /\
  lookAtTarget (filteredPapers [a; b] (2015, 2026)) (Some (id b)) = None.
Proof.
  cbv zeta.
  assert (Hnd : NoDup (map id [bare "a" (Some 2020) (Some 100);
                               bare "b" (Some 2010) (Some 5)])).
  { cbn. constructor.
    - intros [E|[]]. discriminate E.
    - constructor; [intros [] | constructor]. }
  assert (Hin : In (bare "b" (Some 2010) (Some 5))
                   [bare "a" (Some 2020) (Some 100); bare "b" (Some 2010) (Some 5)])
    by (right; left; reflexivity).
  assert (Hr : inYearRange (2015, 2026) (bare "b" (Some 2010) (Some 5)) = false)
    by reflexivity.
  split; [exact Hnd|]. split; [exact Hin|]. split; [exact Hr|].
  exact (proj1 (filtered_out_selection _ _ _ Hnd Hin Hr)).
Defined.

Lemma overlayYears_attained :
  forall papers lo hi,
    overlayYears papers = Some (lo, hi) ->
    (forall p, In p papers -> lo <= or0 (year p) <= hi) /\
    (exists p, In p papers /\ or0 (year p) = lo) /\
    (exists p, In p papers /\ or0 (year p) = hi).
Proof.
  intros papers lo hi. unfold overlayYears.
  destruct (map (fun p => or0 (year p)) papers) as [|y ys] eqn:E; [discriminate|].
  intros [= <- <-].
  destruct (fold_min_spec ys y) as [Hmin_in Hmin].
  destruct (fold_max_spec ys y) as [Hmax_in Hmax].
  rewrite <- E in Hmin_in, Hmax_in.
  apply in_map_iff in Hmin_in. apply in_map_iff in Hmax_in.
  split; [|split].
  - intros p Hp.
    assert (Hin : In (or0 (year p)) (y :: ys)).
    { rewrite <- E. apply (in_map (fun p => or0 (year p))), Hp. }
    split; [apply Hmin | apply Hmax]; exact Hin.
  - destruct Hmin_in as (p & Hp & Hin). exists p. auto.
  - destruct Hmax_in as (p & Hp & Hin). exists p. auto.
Qed.

Lemma filteredPapers_year :
  forall papers r p,
    In p (filteredPapers papers r) ->
    In p papers /\ fst r <= or0 (year p) <= snd r.
Proof.
  intros papers [lo hi] p Hp. unfold filteredPapers in Hp.
  apply filter_In in Hp. destruct Hp as [Hin Hr]. split; [exact Hin|].
  apply inYearRange_spec in Hr. destruct Hr as (y & Hy & Hb).
  rewrite Hy. exact Hb.
Qed.

(** X21: the overlay is given the publications that pass the year range,
    the timeline all of them.  The two year figures of the overlay are the
    least and the greatest year among the publications in range: they
    enclose the year of each of them and lie within the range; when the
    range starts after 1900 they also lie within the statistics the
    timeline computes on all the publications. *)
Theorem overlayYears_spec :
  forall currentYear papers range lo hi,
    overlayYears (filteredPapers papers range) = Some (lo, hi) ->
    (forall p, In p (filteredPapers papers range) -> lo <= or0 (year p) <= hi) /\
    (exists p, In p (filteredPapers papers range) /\ or0 (year p) = lo) /\
    (exists p, In p (filteredPapers papers range) /\ or0 (year p) = hi) /\
    fst range <= lo /\ hi <= snd range /\
    (1900 < fst range ->
     fst (yearStats currentYear papers) <= lo /\
     hi <= snd (yearStats currentYear papers)).
Proof.
  intros cy papers range lo hi H.
  destruct (overlayYears_attained _ lo hi H) as (Hall & (p & Hp & Elo) & (q & Hq & Ehi)).
  destruct (filteredPapers_year papers range p Hp) as [Hp_in Hp_r].
  destruct (filteredPapers_year papers range q Hq) as [Hq_in Hq_r].
  split; [exact Hall|]. split; [eauto|]. split; [eauto|].
  split; [lia|]. split; [lia|].
  intros Hvalid.
  pose proof (yearStats_valid_bounds cy papers p Hp_in ltac:(lia)) as Bp.
  pose proof (yearStats_valid_bounds cy papers q Hq_in ltac:(lia)) as Bq.
  lia.
Qed.

Lemma overlayYears_spec_witness :
  let papers := [bare "a" (Some 2010) None; bare "b" (Some 2020) None] in
  overlayYears (filteredPapers papers (2015, 2026)) = Some (2020, 2020) /\
  2015 <= 2020 /\ 2020 <= 2026 /\
  fst (yearStats 2026 papers) <= 2020 /\ 2020 <= snd (yearStats 2026 papers).
Proof.
  cbv zeta.
  assert (H : overlayYears (filteredPapers [bare "a" (Some 2010) None;
                                            bare "b" (Some 2020) None] (2015, 2026))
              = Some (2020, 2020)) by reflexivity.
  assert (Hvalid : 1900 < fst (2015, 2026)) by (cbn [fst]; lia).
  destruct (overlayYears_spec 2026 _ (2015, 2026) 2020 2020 H)
    as (_ & _ & _ & Hlo & Hhi & Hstats).
  split; [exact H|]. split; [exact Hlo|]. split; [exact Hhi|].
  exact (Hstats Hvalid).
Defined.

(** ** Properties of the publication card *)

Lemma length_append :
  forall s t, String.length (s ++ t)%string = (String.length s + String.length t)%nat.
Proof.
  induction s as [|c s IH]; intros t; cbn [append String.length]; [reflexivity|].
  now rewrite IH.
Qed.

Lemma length_substring_0 :
  forall n s, String.length (substring 0 n s) = Nat.min n (String.length s).
Proof.
  induction n as [|n IH]; intros s.
  - destruct s; reflexivity.
  - destruct s as [|c s]; cbn [substring String.length Nat.min]; [reflexivity|].
    now rewrite IH.
Qed.

(** X22: with more than three authors the line names the first three, as it
    would if they were the only ones, followed by " et al."; whoever comes
    after the third does not change it. *)
Theorem formatAuthors_many :
  forall a,
    (3 < List.length a)%nat ->
    formatAuthors (Some a)
    = (formatAuthors (Some (firstn 3 a)) ++ " et al.")%string.
Proof.
  intros a Hlen. unfold formatAuthors.
  rewrite length_firstn.
  replace (Nat.min 3 (List.length a)) with 3%nat by lia.
  destruct (Nat.eqb_spec (List.length a) 0); [lia|].
  destruct (Nat.leb_spec (List.length a) 3); [lia|].
  reflexivity.
Qed.

Lemma formatAuthors_many_witness :
  (3 < List.length ["Vaswani"; "Shazeer"; "Parmar"; "Uszkoreit"; "Jones"])%nat /\
  formatAuthors (Some ["Vaswani"; "Shazeer"; "Parmar"; "Uszkoreit"; "Jones"])
  = "Vaswani, Shazeer, Parmar et al.".
Proof.
  assert (H : (3 < List.length ["Vaswani"; "Shazeer"; "Parmar"; "Uszkoreit"; "Jones"])%nat)
    by (cbn [List.length]; lia).
  split; [exact H|].
  rewrite (formatAuthors_many _ H). reflexivity.
Defined.

(** X23: the abstract shown is never longer than 303 characters: a text of
    more than 300 characters is cut to its first 300 followed by three
    dots, a shorter non-empty one is shown whole. *)
Theorem formatAbstract_bounded :
  forall text,
    (String.length (formatAbstract text) <= 303)%nat /\
    (forall a, text = Some a -> (300 < String.length a)%nat ->
       formatAbstract text = (substring 0 300 a ++ "...")%string /\
       String.length (formatAbstract text) = 303%nat) /\
    (forall a, text = Some a -> a <> "" -> (String.length a <= 300)%nat ->
       formatAbstract text = a).
Proof.
  intros text. split; [|split].
  - unfold formatAbstract. destruct text as [a|]; [|cbn; lia].
    destruct (String.eqb a ""); [cbn; lia|].
    destruct (Nat.ltb_spec 300 (String.length a)); [|lia].
    rewrite length_append, length_substring_0. cbn [String.length]. lia.
  - intros a -> Hlen. unfold formatAbstract.
    destruct (String.eqb_spec a "") as [->|_]; [cbn in Hlen; lia|].
    destruct (Nat.ltb_spec 300 (String.length a)); [|lia].
    split; [reflexivity|].
    rewrite length_append, length_substring_0. cbn [String.length]. lia.
  - intros a -> Hne Hlen. unfold formatAbstract.
    destruct (String.eqb_spec a ""); [contradiction|].
    destruct (Nat.ltb_spec 300 (String.length a)); [lia | reflexivity].
Qed.

Lemma formatAbstract_bounded_witness :
  let a := "The dominant sequence transduction models are based on recurrent networks." in
  Some a = Some a /\ a <> "" /\ (String.length a <= 300)%nat /\
  formatAbstract (Some a) = a.
Proof.
  cbv zeta.
  assert (Hne : "The dominant sequence transduction models are based on recurrent networks."
                <> "") by discriminate.
  assert (Hlen : (String.length
                    "The dominant sequence transduction models are based on recurrent networks."
                  <= 300)%nat) by (cbn; lia).
  split; [reflexivity|]. split; [exact Hne|]. split; [exact Hlen|].
  exact (proj2 (proj2 (formatAbstract_bounded _)) _ eq_refl Hne Hlen).
Defined.

(** ** Properties of the normalisation of fetched publications *)

Lemma normalizePapers_length :
  forall random raws calls,
    List.length (fst (normalizePapers random calls raws)) = List.length raws.
Proof.
  intros random. induction raws as [|raw rest IH]; intros calls;
    cbn [normalizePapers]; [reflexivity|].
  destruct (truthyString (raw_id raw)).
  - specialize (IH calls). destruct (normalizePapers random calls rest).
    cbn [fst List.length] in *. now rewrite IH.
  - specialize (IH (S calls)). destruct (normalizePapers random (S calls) rest).
    cbn [fst List.length] in *. now rewrite IH.
Qed.

Lemma normalizePapers_nth :
  forall random raws calls i raw,
    nth_error raws i = Some raw ->
    exists n,
      nth_error (fst (normalizePapers random calls raws)) i
      = Some (normalizePaper (if truthyString (raw_id raw) then "" else random n) raw).
Proof.
  intros random. induction raws as [|r rest IH]; intros calls i raw Hi.
  - destruct i; discriminate.
  - cbn [normalizePapers]. destruct i as [|i]; cbn [nth_error] in Hi.
    + injection Hi as ->. exists calls.
      destruct (truthyString (raw_id raw)).
      * destruct (normalizePapers random calls rest). reflexivity.
      * destruct (normalizePapers random (S calls) rest). reflexivity.
    + destruct (truthyString (raw_id r)).
      * destruct (IH calls i raw Hi) as [n Hn]. exists n.
        destruct (normalizePapers random calls rest). exact Hn.
      * destruct (IH (S calls) i raw Hi) as [n Hn]. exists n.
        destruct (normalizePapers random (S calls) rest). exact Hn.
Qed.

(** X24: normalisation keeps the number and the order of the fetched
    publications; the i-th result carries the title, year, citation count
    and cluster of the i-th fetched one, always has a list of fields, keeps
    a non-empty id as it is and otherwise takes a random token as id. *)
Theorem normalizePapers_aligned :
  forall random calls raws,
    List.length (fst (normalizePapers random calls raws)) = List.length raws /\
    (forall i raw,
       nth_error raws i = Some raw ->
       exists p,
         nth_error (fst (normalizePapers random calls raws)) i = Some p /\
         title p = raw_title raw /\ year p = raw_year raw /\
         citation_count p = raw_citation_count raw /\ cluster p = raw_cluster raw /\
         fields p <> None /\
         (truthyString (raw_id raw) = true -> Some (id p) = raw_id raw) /\
         (truthyString (raw_id raw) = false -> exists n, id p = random n)).
Proof.
  intros random calls raws. split; [apply normalizePapers_length|].
  intros i raw Hi. destruct (normalizePapers_nth random raws calls i raw Hi) as [n Hn].
  eexists. split; [exact Hn|].
  cbn [normalizePaper title year citation_count cluster fields id].
  repeat split; try discriminate.
  - intros Ht. rewrite Ht. destruct (raw_id raw); [reflexivity | discriminate].
  - intros Ht. rewrite Ht. eauto.
Qed.

Lemma normalizePapers_aligned_witness :
  let raw := mkRawPaper None (Some "Untitled") None (Some 2020) None None None
                        None None None None in
  nth_error [raw] 0 = Some raw /\
  exists p,
    nth_error (fst (normalizePapers (fun _ => "0.42") 0 [raw])) 0 = Some p /\
    title p = Some "Untitled" /\ fields p <> None.
Proof.
  cbv zeta. split; [reflexivity|].
  destruct (proj2 (normalizePapers_aligned (fun _ => "0.42") 0
                     [mkRawPaper None (Some "Untitled") None (Some 2020) None None None
                                 None None None None])
                  0%nat _ eq_refl) as (p & Hp & Ht & _ & _ & _ & Hf & _).
  exists p. split; [exact Hp|]. split; [exact Ht | exact Hf].
Defined.

(** X25: when every fetched publication has a non-empty id, normalisation
    never consults the random source: its result is the same for every
    source, and the ids are the fetched ones. *)
Theorem normalizePapers_deterministic :
  forall random calls raws,
    (forall raw, In raw raws -> truthyString (raw_id raw) = true) ->
    normalizePapers random calls raws = (map (normalizePaper "") raws, calls) /\
    map (fun p => Some (id p)) (fst (normalizePapers random calls raws))
    = map raw_id raws.
Proof.
  intros random calls raws Hall.
  assert (H : normalizePapers random calls raws = (map (normalizePaper "") raws, calls)).
  { induction raws as [|raw rest IH]; cbn [normalizePapers map]; [reflexivity|].
    rewrite (Hall raw (or_introl eq_refl)).
    rewrite IH; [reflexivity|]. intros r Hr. apply Hall. now right. }
  split; [exact H|]. rewrite H. cbn [fst]. rewrite map_map.
  apply map_ext_in. intros raw Hraw. cbn [normalizePaper id].
  specialize (Hall raw Hraw). rewrite Hall.
  destruct (raw_id raw); [reflexivity | discriminate].
Qed.

Lemma normalizePapers_deterministic_witness :
  let raws := [mkRawPaper (Some "a") None None None None None None None None None None] in
  (forall raw, In raw raws -> truthyString (raw_id raw) = true) /\
  normalizePapers (fun _ => "0.42") 0 raws = (map (normalizePaper "") raws, 0%nat).
Proof.
  cbv zeta.
  assert (H : forall raw,
             In raw [mkRawPaper (Some "a") None None None None None None None None None None] ->
             truthyString (raw_id raw) = true).
  { intros raw [<-|[]]. reflexivity. }
  split; [exact H|].
  exact (proj1 (normalizePapers_deterministic (fun _ => "0.42") 0 _ H)).
Defined.

(** When no random token is empty, every normalised publication has a
    non-empty id. *)
Lemma normalizePapers_ids_nonempty :
  forall random calls raws p,
    (forall n, random n <> "") ->
    In p (fst (normalizePapers random calls raws)) ->
    id p <> "".
Proof.
  intros random calls raws p Hrandom Hp.
  apply In_nth_error in Hp. destruct Hp as [i Hi].
  destruct (nth_error raws i) as [raw|] eqn:Eraw.
  - destruct (normalizePapers_nth random raws calls i raw Eraw) as [n Hn].
    rewrite Hn in Hi. injection Hi as <-. cbn [normalizePaper id].
    destruct (raw_id raw) as [s|]; cbn [truthyString orEmpty].
    + destruct (String.eqb_spec s ""); cbn [negb]; [apply Hrandom | assumption].
    + apply Hrandom.
  - apply nth_error_None in Eraw. rewrite <- (normalizePapers_length random raws calls) in Eraw.
    apply nth_error_None in Eraw. congruence.
Qed.

(** ** Properties of the fetch, of the hook and of a whole search *)

(** X26: whatever the hook fetched before, a fetch that fails leaves it with
    no publication and no connection, the message as its error and loading
    off; a fetch that succeeds leaves exactly the state it resolves to, with
    no error and loading off. *)
Theorem hookFetch_outcomes :
  forall random fetched st,
    let st' := fst (hookFetch random fetched st) in
    let out := snd (hookFetch random fetched st) in
    hook_loading st' = false /\
    (forall m, out = Rejected m ->
       st' = mkHookState [] [] false (Some m) None) /\
    (forall s, out = Resolved s -> st' = s /\ hook_error s = None).
Proof.
  intros random fetched st. cbv zeta. unfold hookFetch.
  destruct fetched as [response|m0]; cbn [fst snd].
  - destruct (negb (response_ok response)); cbn [fst snd hook_loading].
    + split; [reflexivity|]. split; [|discriminate].
      intros m [= <-]. reflexivity.
    + destruct (negb (data_success (response_data response)));
        cbn [fst snd hook_loading].
      * split; [reflexivity|]. split; [|discriminate].
        intros m [= <-]. reflexivity.
      * split; [reflexivity|]. split; [discriminate|].
        intros s [= <-]. auto.
  - split; [reflexivity|]. split; [|discriminate].
    intros m [= <-]. reflexivity.
Qed.

(** X27: on every answer the hook accepts and that carries publications,
    the fetch of [App] succeeds too, each of the two drawing its own random
    tokens: the connections are the same and the publications correspond
    one by one, each being the normalisation of the same fetched
    publication, under the same token when that publication has a
    non-empty id; so when every fetched publication has a non-empty id the
    publications are the same. *)
Theorem App_fetch_agrees_with_hook :
  forall randomApp randomHook response st out,
    snd (hookFetch randomHook (Resolved response) st) = Resolved out ->
    net_papers (data_network (response_data response)) <> None ->
    exists r raws,
      net_papers (data_network (response_data response)) = Some raws /\
      fetchPaperNetwork randomApp (Resolved response) = Resolved r /\
      result_edges r = hook_connections out /\
      List.length (result_papers r) = List.length (hook_papers out) /\
      (forall i raw,
         nth_error raws i = Some raw ->
         exists tokenApp tokenHook,
           nth_error (result_papers r) i = Some (normalizePaper tokenApp raw) /\
           nth_error (hook_papers out) i = Some (normalizePaper tokenHook raw) /\
           (truthyString (raw_id raw) = true -> tokenApp = tokenHook)) /\
      ((forall raw, In raw raws -> truthyString (raw_id raw) = true) ->
       result_papers r = hook_papers out).
Proof.
  intros randomApp randomHook response st out. unfold hookFetch, fetchPaperNetwork.
  destruct (negb (response_ok response)); cbn [snd]; [discriminate|].
  destruct (negb (data_success (response_data response))); cbn [snd]; [discriminate|].
  intros [= <-] Hpapers.
  destruct (net_papers (data_network (response_data response))) as [raws|];
    [|congruence].
  eexists. exists raws. split; [reflexivity|]. split; [reflexivity|].
  cbn [result_edges result_papers hook_connections hook_papers].
  split; [reflexivity|]. split; [|split].
  - now rewrite !normalizePapers_length.
  - intros i raw Hi.
    destruct (normalizePapers_nth randomApp raws 0 i raw Hi) as [n Hn].
    destruct (normalizePapers_nth randomHook raws 0 i raw Hi) as [k Hk].
    exists (if truthyString (raw_id raw) then "" else randomApp n),
           (if truthyString (raw_id raw) then "" else randomHook k).
    split; [exact Hn|]. split; [exact Hk|].
    intros Ht. rewrite Ht. reflexivity.
  - intros Hall.
    assert (HA : normalizePapers randomApp 0 raws = (map (normalizePaper "") raws, 0%nat)).
    { clear - Hall. generalize 0%nat as calls.
      induction raws as [|raw rest IH]; intros calls; cbn [normalizePapers map];
        [reflexivity|].
      rewrite (Hall raw (or_introl eq_refl)).
      rewrite IH; [reflexivity|]. intros x Hx. apply Hall. now right. }
    assert (HH : normalizePapers randomHook 0 raws = (map (normalizePaper "") raws, 0%nat)).
    { clear - Hall. generalize 0%nat as calls.
      induction raws as [|raw rest IH]; intros calls; cbn [normalizePapers map];
        [reflexivity|].
      rewrite (Hall raw (or_introl eq_refl)).
      rewrite IH; [reflexivity|]. intros x Hx. apply Hall. now right. }
    now rewrite HA, HH.
Qed.

Lemma App_fetch_agrees_with_hook_witness :
  let raw := mkRawPaper None (Some "A") None (Some 2020) (Some 3) None None
                        None None None None in
  let response :=
    mkResponse true 200
      (mkApiData true None (mkNetwork (Some [raw]) None (Some "a") None)) in
  net_papers (data_network (response_data response)) <> None /\
  exists r,
    fetchPaperNetwork (fun _ => "0.1") (Resolved response) = Resolved r /\
    List.length (result_papers r) = 1%nat.
Proof.
  cbv zeta.
  set (response :=
         mkResponse true 200
           (mkApiData true None
              (mkNetwork
                 (Some [mkRawPaper None (Some "A") None (Some 2020) (Some 3)
                                   None None None None None None])
                 None (Some "a") None))).
  assert (Hp : net_papers (data_network (response_data response)) <> None)
    by discriminate.
  split; [exact Hp|].
  destruct (App_fetch_agrees_with_hook (fun _ => "0.1") (fun _ => "0.2")
              response hookInitial _ eq_refl Hp)
    as (r & raws & _ & Hr & _ & Hlen & _).
  exists r. split; [exact Hr|]. rewrite Hlen. reflexivity.
Defined.

(** The characters [trim] strips, in UTF-8, are blank one by one and in a
    row; the zero width space U+200B, which it keeps, is not. *)
Lemma isBlank_trim_characters :
  let utf8 := fun bytes => string_of_list_ascii (map ascii_of_nat bytes) in
  let stripped :=
    [[9]; [10]; [11]; [12]; [13]; [32]; [194; 160]; [225; 154; 128];
     [226; 128; 128]; [226; 128; 129]; [226; 128; 130]; [226; 128; 131];
     [226; 128; 132]; [226; 128; 133]; [226; 128; 134]; [226; 128; 135];
     [226; 128; 136]; [226; 128; 137]; [226; 128; 138]; [226; 128; 168];
     [226; 128; 169]; [226; 128; 175]; [226; 129; 159]; [227; 128; 128];
     [239; 187; 191]]%nat in
  forallb (fun bytes => isBlank (utf8 bytes)) stripped = true /\
  isBlank (utf8 (List.concat stripped)) = true /\
  isBlank (utf8 [226; 128; 139]%nat) = false.
Proof. cbv zeta. repeat split; vm_compute; reflexivity. Qed.

(** X28: a search that cannot deliver a graph (blank input, a failed
    request, an answer that is not ok, or one without publications) leaves
    the publications, the connections, the selection and the year range as
    they were. *)
Theorem search_failure_keeps_state :
  forall random input fetched st,
    isBlank input = true \/
    (exists m, fetched = Rejected m) \/
    (exists response,
       fetched = Resolved response /\
       (response_ok response = false \/
        net_papers (data_network (response_data response)) = None)) ->
    let st' := search random input fetched st in
    papers st' = papers st /\
    connections st' = connections st /\
    selectedPaper st' = selectedPaper st /\
    yearRange st' = yearRange st.
Proof.
  intros random input fetched st H. cbv zeta. unfold search, handleSearch.
  destruct (isBlank input); [auto|].
  assert (Hnone : outcomeOption (fetchPaperNetwork random fetched) = None).
  { destruct H as [H|[[m ->]|(response & -> & H)]]; [discriminate | reflexivity |].
    unfold fetchPaperNetwork. destruct H as [H|H].
    - rewrite H. reflexivity.
    - rewrite H. destruct (negb (response_ok response)); reflexivity. }
  rewrite Hnone. auto.
Qed.

Lemma search_failure_keeps_state_witness :
  let st := handleSearch "1706.03762"
              (Some (mkFetchResult [bare "a" (Some 2020) (Some 1)] [] None))
              (initialState 2026) in
  let response :=
    mkResponse false 500 (mkApiData false None (mkNetwork None None None None)) in
  (exists r, Resolved response = Resolved r /\
             (response_ok r = false \/
              net_papers (data_network (response_data r)) = None)) /\
  papers (search (fun _ => "0.42") "10.1000/x" (Resolved response) st) = papers st.
Proof.
  cbv zeta.
  set (response :=
         mkResponse false 500 (mkApiData false None (mkNetwork None None None None))).
  assert (H : exists r, Resolved response = Resolved r /\
                        (response_ok r = false \/
                         net_papers (data_network (response_data r)) = None)).
  { exists response. split; [reflexivity|]. left. reflexivity. }
  split; [exact H|].
  exact (proj1 (search_failure_keeps_state (fun _ => "0.42") "10.1000/x"
                  (Resolved response) _ (or_intror (or_intror H)))).
Defined.

(** ** Properties of the first line of extracted text *)

Lemma splitLines_nonempty : forall text, splitLines text <> [].
Proof.
  destruct text as [|c rest]; cbn [splitLines]; [discriminate|].
  destruct (Ascii.eqb c newline); [discriminate|].
  destruct (splitLines rest); discriminate.
Qed.

Lemma join_cons_char :
  forall sep c line lines,
    join sep (String c line :: lines) = String c (join sep (line :: lines)).
Proof.
  intros sep c line lines. cbn [join]. destruct lines; reflexivity.
Qed.

Lemma join_splitLines :
  forall text, join lineFeed (splitLines text) = text.
Proof.
  induction text as [|c rest IH]; [reflexivity|].
  cbn [splitLines]. destruct (Ascii.eqb_spec c newline) as [->|Hc].
  - destruct (splitLines rest) as [|line lines] eqn:E.
    + exfalso. exact (splitLines_nonempty rest E).
    + cbn [join]. cbn [join] in IH. unfold lineFeed at 1. cbn [append].
      now rewrite IH.
  - destruct (splitLines rest) as [|line lines] eqn:E.
    + exfalso. exact (splitLines_nonempty rest E).
    + rewrite join_cons_char. now rewrite IH.
Qed.

Lemma splitLines_count :
  forall text,
    List.length (splitLines text)
    = S (count_occ ascii_dec (list_ascii_of_string text) newline).
Proof.
  induction text as [|c rest IH]; [reflexivity|].
  cbn [splitLines list_ascii_of_string count_occ].
  destruct (Ascii.eqb_spec c newline) as [->|Hc].
  - destruct (ascii_dec newline newline); [|congruence].
    cbn [List.length]. now rewrite IH.
  - destruct (ascii_dec c newline); [congruence|].
    destruct (splitLines rest) as [|line lines] eqn:E.
    + exfalso. exact (splitLines_nonempty rest E).
    + rewrite <- IH. reflexivity.
Qed.

(** X29: splitting a text at its line feeds gives one piece more than it
    has line feeds, and joining the pieces with line feeds gives the text
    back. *)
Theorem splitLines_join :
  forall text,
    join lineFeed (splitLines text) = text /\
    List.length (splitLines text)
    = S (count_occ ascii_dec (list_ascii_of_string text) newline).
Proof.
  intros text. split; [apply join_splitLines | apply splitLines_count].
Qed.

Lemma splitLines_head_no_newline :
  forall text line lines,
    splitLines text = line :: lines ->
    ~ In newline (list_ascii_of_string line).
Proof.
  induction text as [|c rest IH]; intros line lines; cbn [splitLines].
  - intros [= <- <-] [].
  - destruct (Ascii.eqb_spec c newline) as [->|Hc].
    + intros [= <- <-] [].
    + destruct (splitLines rest) as [|l ls] eqn:E.
      * intros [= <- <-] [H|[]]. congruence.
      * intros [= <- <-] [H|H]; [congruence|]. exact (IH l ls eq_refl H).
Qed.

(** X30: the title taken from extracted text contains no line feed and is
    the start of the text: the text is the title alone, or the title, a line
    feed and the rest. *)
Theorem extractTitleFromPDF_first_line :
  forall text,
    ~ In newline (list_ascii_of_string (extractTitleFromPDF text)) /\
    (text = extractTitleFromPDF text \/
     exists rest, text = (extractTitleFromPDF text ++ String newline rest)%string).
Proof.
  intros text. unfold extractTitleFromPDF.
  pose proof (join_splitLines text) as Hjoin.
  destruct (splitLines text) as [|line lines] eqn:E.
  - exfalso. exact (splitLines_nonempty text E).
  - assert (Htitle : (if String.eqb line "" then "" else line) = line).
    { destruct (String.eqb_spec line ""); congruence. }
    rewrite Htitle. split; [exact (splitLines_head_no_newline text line lines E)|].
    cbn [join] in Hjoin. destruct lines as [|l ls].
    + left. congruence.
    + right. exists (join lineFeed (l :: ls)). rewrite <- Hjoin. reflexivity.
Qed.
